(** * A checkpoint-resumable training loop: [train.py]

    Shallow embedding of [reload_model], [write_stats], [load_stats],
    [pytorch_train_impl] and [train], followed by the properties of the
    resume / early-stopping state machine.

    Modelling choices.
    - Python numbers: integers are [Z]; a float is a binary64 double,
      modelled by the rational it denotes.  Every arithmetic result is
      rounded to the nearest double, ties to even ([double]); comparison
      and negation of doubles are exact, so [>] is the order of [Q] on the
      rounded values.  Only finite doubles are modelled: the losses and
      their sums are taken in range, and counts never reach the largest
      double, so no result is infinite or not a number.
    - A Python value that may be [None] is an [option].
    - The output directory is a [location]: it does not exist, or it is a
      directory with two slots, [best_model.pt] and [stats.yaml].
    - The model, optimizer, loss function and the two data loaders are
      opaque collaborators: what they do in epoch [e] of a run is given by an
      oracle [collaborators], one [epoch_run] per epoch index.
    - Effects are threaded through a [world]; an exception carries the world
      it was raised in, since whatever was written before stays written.
    - [stats.yaml], when present, holds the dictionary [write_stats] dumps.
      A write into an existing directory succeeds, a write under a missing
      one raises [FileNotFoundError]; the sink and the tuning client accept
      what they are given.
    - [logger] calls, [time.time], [model.to], [model.train], [model.eval]
      and the progress bar change nothing that is observed here; only the
      evaluation of the arguments of the [logger] calls is kept, since it
      can raise. *)

From Stdlib Require Import ZArith QArith Qminmax String List Bool Sorted Lia.
Import ListNotations.
Local Open Scope Z_scope.

(** * The program *)

(** ** Exceptions *)

(** [RuntimeError msg] stands for any instance of Python's [RuntimeError]
    (or of a subclass) whose [str] is [msg]; [OtherError] for an exception
    of any class outside that hierarchy that is not listed. *)
Inductive exn : Type :=
| RuntimeError (msg : string)
| FileNotFoundError
| ZeroDivisionError
| UnboundLocalError
| TypeError
| OtherError (class msg : string).

(** [needle in hay] on Python strings. *)
Fixpoint str_contains (needle hay : string) : bool :=
  String.prefix needle hay
  || match hay with
     | EmptyString => false
     | String _ rest => str_contains needle rest
     end.

(** ** Data *)

(** The weights of a model ([model.state_dict()]), opaque. *)
Definition state_dict : Type := list Q.

(** The dictionary stored in [stats.yaml]. *)
Record stats : Type := {
  best_dev_metric : option Q;
  epoch : Z
}.

(** Content of [best_model.pt]: a snapshot that [torch.load] and
    [load_state_dict] accept, or one on which they raise [err]. *)
Inductive artifact : Type :=
| Snapshot (p : state_dict)
| Unloadable (err : exn).

(** The output location. *)
Inductive location : Type :=
| Missing
| Directory (saved_model : option artifact) (stat_file : option stats).

(** What is written to the disk, in the order of the writes. *)
Inductive disk_write : Type :=
| MakeDirs
| SaveModel (p : state_dict)
| WriteStats (s : stats).

(** One record of the list handed to [report_results]. *)
Record objective : Type := {
  obj_name : string;
  obj_type : string;
  obj_value : Q
}.

Record world : Type := {
  disk : location;                      (* the output location *)
  writes : list disk_write;             (* history of the writes to it *)
  net : state_dict;                     (* weights of the model object *)
  mlflow : list (string * option Q);    (* [log_metric] emissions *)
  orion : list (list objective)         (* [report_results] calls *)
}.

(** ** Computations that change the world and may raise *)

Inductive outcome (A : Type) : Type :=
| Returns (a : A) (w : world)
| Raises (err : exn) (w : world).
Arguments Returns {A} a w.
Arguments Raises {A} err w.

Definition M (A : Type) : Type := world -> outcome A.

Definition ret {A} (a : A) : M A := fun w => Returns a w.
Definition raise {A} (err : exn) : M A := fun w => Raises err w.
Definition bind {A B} (c : M A) (k : A -> M B) : M B :=
  fun w => match c w with
           | Returns a w' => k a w'
           | Raises err w' => Raises err w'
           end.

Declare Scope py_scope.
Delimit Scope py_scope with py.
Notation "x <- c ;; k" := (bind c (fun x => k))
  (at level 61, c at next level, right associativity) : py_scope.
Notation "c ;; k" := (bind c (fun _ => k))
  (at level 61, right associativity) : py_scope.
Local Open Scope py_scope.

Definition final_world {A} (o : outcome A) : world :=
  match o with Returns _ w => w | Raises _ w => w end.

(** ** The external collaborators *)

(** [log_metric(name, value)] *)
Definition log_metric (name : string) (value : option Q) : M unit :=
  fun w => Returns tt
    {| disk := disk w; writes := writes w; net := net w;
       mlflow := mlflow w ++ [(name, value)]; orion := orion w |}.

(** [report_results(records)] *)
Definition report_results (records : list objective) : M unit :=
  fun w => Returns tt
    {| disk := disk w; writes := writes w; net := net w;
       mlflow := mlflow w; orion := orion w ++ [records] |}.

(** [os.path.exists(os.path.join(output, SAVED_MODEL_NAME))] *)
Definition exists_saved_model : M bool :=
  fun w => Returns match disk w with
                   | Directory (Some _) _ => true
                   | _ => false
                   end w.

(** [os.path.exists(output)] *)
Definition exists_output : M bool :=
  fun w => Returns match disk w with
                   | Directory _ _ => true
                   | Missing => false
                   end w.

(** [os.makedirs(output)], called where [output] does not exist. *)
Definition makedirs : M unit :=
  fun w => Returns tt
    {| disk := Directory None None; writes := writes w ++ [MakeDirs];
       net := net w; mlflow := mlflow w; orion := orion w |}.

(** [model.load_state_dict(torch.load(saved_model))] *)
Definition load_state_dict : M unit :=
  fun w => match disk w with
           | Directory (Some (Snapshot p)) _ =>
               Returns tt
                 {| disk := disk w; writes := writes w; net := p;
                    mlflow := mlflow w; orion := orion w |}
           | Directory (Some (Unloadable err)) _ => Raises err w
           | _ => Raises FileNotFoundError w
           end.

(** [torch.save(model.state_dict(), os.path.join(output, SAVED_MODEL_NAME))] *)
Definition torch_save : M unit :=
  fun w => match disk w with
           | Directory _ st =>
               Returns tt
                 {| disk := Directory (Some (Snapshot (net w))) st;
                    writes := writes w ++ [SaveModel (net w)];
                    net := net w; mlflow := mlflow w; orion := orion w |}
           | Missing => Raises FileNotFoundError w
           end.

(** What the model, the optimizer, the loss function and the loaders do in
    one epoch: a call raises (leaving the weights at [p]), or both passes
    over the data go through.  [train_batches] holds, per batch,
    [loss.item()] and [predictions.shape[0]]; [dev_batches] holds, per
    batch, [torch.sum(acc).item()] and [model_target.shape[0]]; [p] are the
    weights after the last [optimizer.step()]. *)
Inductive epoch_run : Type :=
| Fails (err : exn) (p : state_dict)
| Passes (train_batches : list (Q * Z)) (dev_batches : list (Z * Z))
         (p : state_dict).

Definition collaborators : Type := Z -> epoch_run.

(** ** [write_stats] and [load_stats] *)

Definition write_stats (best : option Q) (next_epoch : Z) : M unit :=
  fun w =>
    let to_store := {| best_dev_metric := best; epoch := next_epoch |} in
    match disk w with
    | Directory m _ =>
        Returns tt
          {| disk := Directory m (Some to_store);
             writes := writes w ++ [WriteStats to_store];
             net := net w; mlflow := mlflow w; orion := orion w |}
    | Missing => Raises FileNotFoundError w
    end.

Definition load_stats : M stats :=
  fun w => match disk w with
           | Directory _ (Some s) => Returns s w
           | _ => Raises FileNotFoundError w
           end.

(** ** [reload_model] *)

Definition reload_model (start_from_scratch : bool) : M (option stats) :=
  saved <- exists_saved_model ;;
  if start_from_scratch && saved then ret None
  else if saved then
    load_state_dict ;;
    s <- load_stats ;;
    ret (Some s)
  else
    there <- exists_output ;;
    if there then ret None
    else makedirs ;; ret None.

(** ** [pytorch_train_impl] *)

(** The variables of the epoch loop; [v_epoch] is the loop variable, unbound
    until the first iteration. *)
Record locals : Type := {
  v_best_dev_metric : option Q;
  v_not_improving_since : Z;
  v_epoch : option Z
}.

(** [num / den] for [den > 0], rounded to the nearest integer, ties to
    even. *)
Definition round_half_even (num den : Z) : Z :=
  let q := num / den in
  let r := num mod den in
  if 2 * r <? den then q
  else if den <? 2 * r then q + 1
  else if Z.even q then q else q + 1.

(** The exponent of the unit in the last place of the double nearest to
    [a / b], for [a, b > 0]: a double has 53 significant bits and no
    exponent below -1074.  [e] is the integer with
    [2 ^ e <= a / b < 2 ^ (e + 1)]. *)
Definition ulp_exponent (a b : Z) : Z :=
  let e0 := Z.log2 a - Z.log2 b in
  let e := if b * 2 ^ Z.max 0 e0 <=? a * 2 ^ Z.max 0 (- e0)
           then e0 else e0 - 1 in
  Z.max (e - 52) (-1074).

(** The double nearest to [a / b], for [a, b > 0]: a multiple of the unit
    in the last place. *)
Definition double_pos (a b : Z) : Q :=
  let u := ulp_exponent a b in
  let n := round_half_even (a * 2 ^ Z.max 0 (- u)) (b * 2 ^ Z.max 0 u) in
  Qred ((n * 2 ^ Z.max 0 u) # Z.to_pos (2 ^ Z.max 0 (- u))).

(** The double nearest to the rational [q], ties to even, as a fraction in
    lowest terms. *)
Definition double (q : Q) : Q :=
  match Qnum q with
  | 0 => 0 # 1
  | Zpos a => double_pos (Zpos a) (Zpos (Qden q))
  | Zneg a => (- double_pos (Zpos a) (Zpos (Qden q)))%Q
  end.

(** [x / n] with [x] a float and [n] an integer: raises on a zero divisor,
    else converts [n] to a float and divides. *)
Definition true_div (x : Q) (n : Z) : M Q :=
  if n =? 0 then raise ZeroDivisionError
  else ret (double (x / double (inject_Z n))).

(** [a / n] with both integers: raises on a zero divisor, else gives the
    double nearest to the quotient. *)
Definition int_true_div (a n : Z) : M Q :=
  if n =? 0 then raise ZeroDivisionError
  else ret (double (inject_Z a / inject_Z n)).

Definition Qgtb (x y : Q) : bool := negb (Qle_bool x y).

(** The test of the improvement check:
    [best_dev_metric is None or dev_metric > best_dev_metric]. *)
Definition improves (dev_metric : Q) (best : option Q) : bool :=
  match best with
  | None => true
  | Some b => Qgtb dev_metric b
  end.

(** The training pass: the collaborators run, then [running_loss] and
    [examples] are what the batches add up to. *)
Definition run_batches (r : epoch_run) : M (list (Q * Z) * list (Z * Z)) :=
  fun w => match r with
           | Fails err p =>
               Raises err
                 {| disk := disk w; writes := writes w; net := p;
                    mlflow := mlflow w; orion := orion w |}
           | Passes tb db p =>
               Returns (tb, db)
                 {| disk := disk w; writes := writes w; net := p;
                    mlflow := mlflow w; orion := orion w |}
           end.

(** [running_loss], from [0.0], after [running_loss += loss.item()] for
    every batch. *)
Definition sum_losses (l : list Q) : Q :=
  fold_left (fun acc x => double (acc + double x)) l (0 # 1)%Q.

(** [examples] or [correct], from [0], after the additions of every
    batch. *)
Definition sumZ (l : list Z) : Z := fold_left Z.add l 0.

(** The body of [for epoch in range(start_epoch, max_epoch)]; the boolean
    tells whether the iteration ended in [break]. *)
Definition epoch_body (env : collaborators) (patience : Z) (e : Z)
    (v : locals) : M (locals * bool) :=
  batches <- run_batches (env e) ;;
  let train_batches := fst batches in
  let dev_batches := snd batches in
  let running_loss := sum_losses (map fst train_batches) in
  let examples := sumZ (map snd train_batches) in
  avg_loss <- true_div running_loss examples ;;
  let correct := sumZ (map fst dev_batches) in
  let examples := sumZ (map snd dev_batches) in
  dev_metric <- int_true_div correct examples ;;
  log_metric "dev_metric" (Some dev_metric) ;;
  log_metric "loss" (Some avg_loss) ;;
  v1 <- (if improves dev_metric (v_best_dev_metric v) then
           torch_save ;;
           ret {| v_best_dev_metric := Some dev_metric;
                  v_not_improving_since := 0;
                  v_epoch := Some e |}
         else
           ret {| v_best_dev_metric := v_best_dev_metric v;
                  v_not_improving_since := v_not_improving_since v + 1;
                  v_epoch := Some e |}) ;;
  (* logger.info(... running_loss / len(train_loader) ...) *)
  true_div running_loss (Z.of_nat (List.length train_batches)) ;;
  write_stats (v_best_dev_metric v1) (e + 1) ;;
  ret (v1, v_not_improving_since v1 >=? patience).

(** [for epoch in range(e, e + n)]: [n] iterations are left. *)
Fixpoint for_range (env : collaborators) (patience : Z) (n : nat) (e : Z)
    (v : locals) : M locals :=
  match n with
  | O => ret v
  | S n' =>
      r <- epoch_body env patience e v ;;
      if snd r then ret (fst r)
      else for_range env patience n' (e + 1) (fst r)
  end.

(** The values of [start_epoch] and of the loop variables before the
    loop. *)
Definition start_epoch (s : option stats) : Z :=
  match s with Some s => epoch s | None => 0 end.

Definition initial_locals (s : option stats) : locals :=
  {| v_best_dev_metric :=
       match s with Some s => best_dev_metric s | None => None end;
     v_not_improving_since := 0;
     v_epoch := None |}.

(** The loop and what follows it, from the loop variables [v]. *)
Definition loop_and_finish (env : collaborators) (max_epoch patience : Z)
    (start : Z) (v : locals) : M (option Q) :=
  v' <- for_range env patience (Z.to_nat (max_epoch - start)) start v ;;
  (* logger.info(... epoch + 1 ...) *)
  match v_epoch v' with
  | None => raise UnboundLocalError
  | Some _ =>
      log_metric "best_dev_metric" (v_best_dev_metric v') ;;
      ret (v_best_dev_metric v')
  end.

Definition pytorch_train_impl (env : collaborators) (max_epoch patience : Z)
    (start_from_scratch : bool) : M (option Q) :=
  s <- reload_model start_from_scratch ;;
  loop_and_finish env max_epoch patience (start_epoch s) (initial_locals s).

(** ** [train] *)

Definition CUDA_OOM : string := "CUDA out of memory".

(** The [try] statement: the value of [best_dev_metric] after it. *)
Definition train_best (IS_ORION_ON : bool) (env : collaborators)
    (max_epoch patience : Z) (start_from_scratch : bool) : M (option Q) :=
  fun w =>
    match pytorch_train_impl env max_epoch patience start_from_scratch w with
    | Returns b w' => Returns b w'
    | Raises (RuntimeError msg) w' =>
        if IS_ORION_ON && str_contains CUDA_OOM msg
        then Returns (Some (-999 # 1)%Q) w'
        else Raises (RuntimeError msg) w'
    | Raises err w' => Raises err w'
    end.

(** [report_results([dict(name=..., type=..., value=-best_dev_metric)])] *)
Definition report_best (best : option Q) : M unit :=
  match best with
  | None => raise TypeError
  | Some b =>
      report_results [ {| obj_name := "dev_metric";
                          obj_type := "objective";
                          obj_value := (- b)%Q |} ]
  end.

Definition train (IS_ORION_ON : bool) (env : collaborators)
    (max_epoch patience : Z) (start_from_scratch : bool) : M unit :=
  best <- train_best IS_ORION_ON env max_epoch patience start_from_scratch ;;
  report_best best.

(** * Vocabulary of the properties *)

(** ** Processes and scripted collaborators *)

(** The world of a first process: nothing written or emitted yet. *)
Definition boot (d : location) (p : state_dict) : world :=
  {| disk := d; writes := []; net := p; mlflow := []; orion := [] |}.

(** A later process over the same output location: a new model object,
    the disk and the histories as they were left. *)
Definition restart (w : world) (p : state_dict) : world :=
  {| disk := disk w; writes := writes w; net := p;
     mlflow := mlflow w; orion := orion w |}.

(** Collaborators that follow a script, epoch [i] running [runs[i]]; the
    loaders give out past the end of the script. *)
Definition scripted (runs : list epoch_run) : collaborators :=
  fun e =>
    if e <? 0 then Fails (OtherError "StopIteration" "") []
    else nth (Z.to_nat e) runs (Fails (OtherError "StopIteration" "") []).

(** An epoch of one training batch and one validation batch. *)
Definition pass (loss : Q) (correct total : Z) (p : state_dict) : epoch_run :=
  Passes [(loss, 4)] [(correct, total)] p.

(** ** What an epoch computes and what a world shows *)

(** [avg_loss], when the training pass saw an example. *)
Definition avg_loss_of (tb : list (Q * Z)) : Q :=
  double (sum_losses (map fst tb) / double (inject_Z (sumZ (map snd tb)))).

(** [dev_metric], when the validation pass saw an example: the double
    nearest to the fraction of correct answers. *)
Definition dev_metric_of (db : list (Z * Z)) : Q :=
  double (inject_Z (sumZ (map fst db)) / inject_Z (sumZ (map snd db))).

(** Both passes saw at least one example, so neither average divides by
    zero. *)
Definition countable (tb : list (Q * Z)) (db : list (Z * Z)) : Prop :=
  sumZ (map snd tb) <> 0 /\ sumZ (map snd db) <> 0.

(** Epoch [e] goes through with validation metric [m]. *)
Definition epoch_scores (env : collaborators) (e : Z) (m : Q) : Prop :=
  exists tb db p,
    env e = Passes tb db p /\ countable tb db /\ dev_metric_of db = m.

(** The record in [stats.yaml], if any. *)
Definition persisted (w : world) : option stats :=
  match disk w with
  | Directory _ st => st
  | Missing => None
  end.

(** The artifact in [best_model.pt], if any. *)
Definition saved_artifact (w : world) : option artifact :=
  match disk w with
  | Directory m _ => m
  | Missing => None
  end.

(** The values of [best_dev_metric] written to the state record, in the
    order of the writes. *)
Fixpoint written_bests (l : list disk_write) : list (option Q) :=
  match l with
  | [] => []
  | WriteStats s :: l' => best_dev_metric s :: written_bests l'
  | _ :: l' => written_bests l'
  end.

(** The state records written, in the order of the writes. *)
Fixpoint written_stats (l : list disk_write) : list stats :=
  match l with
  | [] => []
  | WriteStats s :: l' => s :: written_stats l'
  | _ :: l' => written_stats l'
  end.

(** The models written to [best_model.pt], in the order of the writes. *)
Fixpoint saved_models (l : list disk_write) : list state_dict :=
  match l with
  | [] => []
  | SaveModel p :: l' => p :: saved_models l'
  | _ :: l' => saved_models l'
  end.

(** The values emitted to the metrics sink under [name], out of the
    emissions [l]. *)
Definition emitted (name : string) (l : list (string * option Q))
    : list (option Q) :=
  map snd (filter (fun nv => String.eqb (fst nv) name) l).

(** ** The outcome of an epoch that goes through *)

(** The world an epoch leaves when it goes through: [imp] tells whether
    the improvement check succeeded. *)
Definition world_after_epoch (w : world) (ms : option artifact)
    (imp : bool) (p : state_dict) (loss m : Q) (s : stats) : world :=
  {| disk := Directory (if imp then Some (Snapshot p) else ms) (Some s);
     writes := writes w
               ++ (if imp then [SaveModel p; WriteStats s] else [WriteStats s]);
     net := p;
     mlflow := mlflow w ++ [("dev_metric"%string, Some m);
                            ("loss"%string, Some loss)];
     orion := orion w |}.

Definition locals_after_epoch (v : locals) (imp : bool) (e : Z) (m : Q)
    : locals :=
  {| v_best_dev_metric := if imp then Some m else v_best_dev_metric v;
     v_not_improving_since := if imp then 0 else v_not_improving_since v + 1;
     v_epoch := Some e |}.

(** ** Where the loop of a run stands *)

(** The states in which the loop of a run stands at the top of an
    iteration: [loop_reaches env patience max_epoch e0 v0 w0 e v w] when
    the loop entered at epoch [e0] with variables [v0] in world [w0] is
    about to run epoch [e] with variables [v] in world [w]. *)
Inductive loop_reaches (env : collaborators) (patience max_epoch : Z)
    (e0 : Z) (v0 : locals) (w0 : world) : Z -> locals -> world -> Prop :=
| reaches_start : loop_reaches env patience max_epoch e0 v0 w0 e0 v0 w0
| reaches_next e v w v' w' :
    loop_reaches env patience max_epoch e0 v0 w0 e v w ->
    e < max_epoch ->
    epoch_body env patience e v w = Returns (v', false) w' ->
    loop_reaches env patience max_epoch e0 v0 w0 (e + 1) v' w'.

(** The loop of a run stands at the top of epoch [e] with variables [v] in
    world [w1]: [reload_model] returned and the loop got there. *)
Definition run_reaches (env : collaborators) (max_epoch patience : Z)
    (start_from_scratch : bool) (w : world) (e : Z) (v : locals)
    (w1 : world) : Prop :=
  exists s w0,
    reload_model start_from_scratch w = Returns s w0 /\
    loop_reaches env patience max_epoch
      (start_epoch s) (initial_locals s) w0 e v w1.

(** The checkpoint is usable wherever the loop stands: the directory
    exists, and a best metric is held only with a model that loads. *)
Definition standing (v : locals) (w : world) : Prop :=
  (exists ms st, disk w = Directory ms st) /\
  (v_best_dev_metric v = None \/
   exists p, saved_artifact w = Some (Snapshot p)).

(** ** Scenarios *)

(** Patience 1, validation metrics 0.7, 0.7, 0.9. *)
Definition patience_scenario : collaborators :=
  scripted [pass 2 7 10 [1#1]; pass 1 7 10 [2#1]; pass 1 9 10 [3#1]]%Q.

(** Max epoch 3, patience 5, validation metrics 0.5, 0.6, 0.55. *)
Definition improvement_scenario : collaborators :=
  scripted [pass 2 5 10 [1#1]; pass 1 6 10 [2#1]; pass 1 55 100 [3#1]]%Q.

(** An epoch that goes through, then collaborators that are interrupted. *)
Definition interrupted_scenario_run : list epoch_run :=
  [pass 2 5 10 [1#1]%Q; Fails (OtherError "KeyboardInterrupt" "") [9#1]%Q].

(** ** Processes over one output location *)

(** One call of [train] in a process of its own: the tuning flag, the
    collaborators, the configuration and the initial weights of the model
    object. *)
Record process : Type := {
  p_orion : bool;
  p_env : collaborators;
  p_max_epoch : Z;
  p_patience : Z;
  p_start_from_scratch : bool;
  p_weights : state_dict
}.

(** The world a process leaves, whether [train] returns or raises. *)
Definition run_process (c : process) (w : world) : world :=
  final_world
    (train (p_orion c) (p_env c) (p_max_epoch c) (p_patience c)
       (p_start_from_scratch c) (restart w (p_weights c))).

(** Processes one after the other over the same output location. *)
Definition run_all (cs : list process) (w : world) : world :=
  fold_left (fun w c => run_process c w) cs w.

(** Every value is a number and none is below the one before it. *)
Definition nondecreasing (l : list (option Q)) : Prop :=
  exists qs, l = map Some qs /\ Sorted Qle qs.

(** The values written so far are non-decreasing and, once something was
    written, none exceeds [best], which is the best metric on disk, next to
    a saved model. *)
Definition tracked (best : option Q) (w : world) : Prop :=
  exists qs,
    written_bests (writes w) = map Some qs /\
    Sorted Qle qs /\
    (qs = [] \/
     exists b e,
       best = Some b /\
       persisted w = Some {| best_dev_metric := Some b; epoch := e |} /\
       saved_artifact w <> None /\
       Forall (fun q => (q <= b)%Q) qs).

(** A first process that reaches 0.9 in its only epoch, and a second one,
    started from scratch over the same location, that reaches 0.5. *)
Definition first_process : process :=
  {| p_orion := false; p_env := scripted [pass 1 9 10 [1#1]%Q];
     p_max_epoch := 1; p_patience := 1;
     p_start_from_scratch := false; p_weights := [] |}.

Definition process_from_scratch : process :=
  {| p_orion := false; p_env := scripted [pass 1 5 10 [2#1]%Q];
     p_max_epoch := 1; p_patience := 1;
     p_start_from_scratch := true; p_weights := [] |}.

(** A process that resumes after one completed epoch and runs epoch 1,
    reaching 0.7. *)
Definition process_resuming : process :=
  {| p_orion := false;
     p_env := scripted [pass 1 5 10 [2#1]%Q; pass 1 7 10 [3#1]%Q];
     p_max_epoch := 2; p_patience := 1;
     p_start_from_scratch := false; p_weights := [] |}.

(** ** What a run keeps *)

(** Once the loop variable is bound, the best metric is a number and the
    record on disk holds it, next to the epoch after the last one run. *)
Definition settled (v : locals) (w : world) : Prop :=
  match v_epoch v with
  | None => True
  | Some e =>
      exists m,
        v_best_dev_metric v = Some m /\
        persisted w = Some {| best_dev_metric := Some m; epoch := e + 1 |}
  end.

(** The tuning client hears nothing, and the sink nothing under
    [best_dev_metric]. *)
Definition quiet (w w' : world) : Prop :=
  orion w' = orion w /\
  emitted "best_dev_metric" (mlflow w') = emitted "best_dev_metric" (mlflow w).

(** Collaborators whose first call runs out of device memory. *)
Definition oom_scenario : collaborators :=
  fun _ =>
    Fails (RuntimeError
             "CUDA out of memory. Tried to allocate 2.00 GiB (GPU 0)") [].

(** * Properties *)

(** ** Elementary facts *)

(** [double] on known doubles: the nearest double to 1/10 and to 7/10; a
    double is left as it is; ties go to the even neighbour; below the
    smallest normal double the spacing stays [2 ^ -1074]; rounding is
    symmetric around zero. *)
Lemma double_examples :
  double (1 # 10) = 3602879701896397 # 36028797018963968 /\
  double 0.7 = 3152519739159347 # 4503599627370496 /\
  double (double 0.7) = double 0.7 /\
  double 0.5 = 1 # 2 /\
  double (inject_Z (2 ^ 53 + 1)) = inject_Z (2 ^ 53) /\
  double (inject_Z (2 ^ 53 + 3)) = inject_Z (2 ^ 53 + 4) /\
  double (3 # Z.to_pos (2 ^ 1075)) = 1 # Z.to_pos (2 ^ 1073) /\
  double (1 # Z.to_pos (2 ^ 1075)) = 0 # 1 /\
  double (- (7 # 10)) = (- double (7 # 10))%Q.
Proof.
  repeat split; vm_compute; reflexivity.
Qed.

Lemma Qgtb_true (x y : Q) : Qgtb x y = true <-> (y < x)%Q.
Proof.
  unfold Qgtb. rewrite negb_true_iff. split; intro H.
  - apply Qnot_le_lt. intro L. apply Qle_bool_iff in L. congruence.
  - destruct (Qle_bool x y) eqn:E; [|reflexivity].
    apply Qle_bool_iff in E. exfalso. exact (Qlt_not_le _ _ H E).
Qed.

Lemma Qgtb_false (x y : Q) : Qgtb x y = false <-> (x <= y)%Q.
Proof.
  unfold Qgtb. rewrite negb_false_iff. apply Qle_bool_iff.
Qed.

Lemma improves_true (m : Q) (best : option Q) :
  improves m best = true <->
  best = None \/ exists b, best = Some b /\ (b < m)%Q.
Proof.
  destruct best as [b|]; simpl.
  - rewrite Qgtb_true. split.
    + intro H. right. exists b. auto.
    + intros [H|[b' [H L]]]; [discriminate|]. injection H as ->. exact L.
  - split; auto.
Qed.

Lemma improves_false (m : Q) (best : option Q) :
  improves m best = false <-> exists b, best = Some b /\ (m <= b)%Q.
Proof.
  destruct best as [b|]; simpl.
  - rewrite Qgtb_false. split.
    + intro H. exists b. auto.
    + intros [b' [H L]]. injection H as ->. exact L.
  - split; [discriminate|]. intros [b [H _]]. discriminate.
Qed.

Lemma sumZ_nonempty (tb : list (Q * Z)) :
  sumZ (map snd tb) <> 0 -> (Z.of_nat (List.length tb) =? 0) = false.
Proof.
  destruct tb; simpl.
  - intro H. exfalso. apply H. reflexivity.
  - intros _. reflexivity.
Qed.

Lemma written_bests_app (l1 l2 : list disk_write) :
  written_bests (l1 ++ l2) = written_bests l1 ++ written_bests l2.
Proof.
  induction l1 as [|[| |s] l1 IH]; simpl; rewrite ?IH; reflexivity.
Qed.

Lemma saved_models_app (l1 l2 : list disk_write) :
  saved_models (l1 ++ l2) = saved_models l1 ++ saved_models l2.
Proof.
  induction l1 as [|[|p|] l1 IH]; simpl; rewrite ?IH; reflexivity.
Qed.

(** ** One epoch *)

Lemma epoch_body_passes env patience e v w tb db p ms st :
  env e = Passes tb db p ->
  countable tb db ->
  disk w = Directory ms st ->
  let m := dev_metric_of db in
  let imp := improves m (v_best_dev_metric v) in
  let v' := locals_after_epoch v imp e m in
  epoch_body env patience e v w =
  Returns (v', v_not_improving_since v' >=? patience)
    (world_after_epoch w ms imp p (avg_loss_of tb) m
       {| best_dev_metric := v_best_dev_metric v'; epoch := e + 1 |}).
Proof.
  intros He [Ht Hd] Hw m imp v'.
  pose proof (sumZ_nonempty tb Ht) as Hlen.
  apply Z.eqb_neq in Ht. apply Z.eqb_neq in Hd.
  subst v' imp m. unfold dev_metric_of, avg_loss_of.
  unfold epoch_body, bind, run_batches, true_div, int_true_div.
  rewrite He. cbn [fst snd].
  rewrite Ht, Hd, Hlen.
  unfold ret, log_metric. cbn [disk writes net mlflow orion].
  destruct (improves _ _); unfold torch_save, write_stats, ret;
    cbn [disk writes net mlflow orion]; rewrite Hw;
    cbn [disk writes net mlflow orion v_best_dev_metric v_not_improving_since];
    unfold world_after_epoch, locals_after_epoch;
    cbn [disk writes net mlflow orion v_best_dev_metric v_not_improving_since];
    rewrite <- ?app_assoc; reflexivity.
Qed.

(** An epoch that returns went through, over an existing directory. *)
Lemma epoch_body_returns env patience e v w r w' :
  epoch_body env patience e v w = Returns r w' ->
  exists tb db p ms st,
    env e = Passes tb db p /\ countable tb db /\ disk w = Directory ms st.
Proof.
  unfold epoch_body, bind, run_batches, true_div, int_true_div.
  destruct (env e) as [err p|tb db p]; [discriminate|].
  cbn [fst snd].
  destruct (sumZ (map snd tb) =? 0) eqn:Ht; [discriminate|].
  destruct (sumZ (map snd db) =? 0) eqn:Hd; [discriminate|].
  apply Z.eqb_neq in Ht. apply Z.eqb_neq in Hd.
  destruct (disk w) as [|ms st] eqn:Hw.
  - unfold ret, log_metric. cbn [disk writes net mlflow orion].
    destruct (improves _ _); unfold torch_save, write_stats, ret;
      cbn [disk writes net mlflow orion]; rewrite ?Hw; [discriminate|].
    destruct (Z.of_nat (List.length tb) =? 0);
      unfold raise; cbn [disk]; rewrite ?Hw; discriminate.
  - intros _. exists tb, db, p, ms, st. repeat split; assumption.
Qed.

Lemma emitted_app name (l1 l2 : list (string * option Q)) :
  emitted name (l1 ++ l2) = emitted name l1 ++ emitted name l2.
Proof.
  unfold emitted. rewrite filter_app, map_app. reflexivity.
Qed.

Lemma emitted_epoch (l : list (string * option Q)) (m loss : option Q) :
  emitted "dev_metric" (l ++ [("dev_metric"%string, m); ("loss"%string, loss)])
  = emitted "dev_metric" l ++ [m].
Proof.
  rewrite emitted_app. reflexivity.
Qed.

(** An epoch that raises has written nothing. *)
Lemma epoch_body_raises env patience e v w err w' :
  (exists ms st, disk w = Directory ms st) ->
  epoch_body env patience e v w = Raises err w' ->
  disk w' = disk w /\ writes w' = writes w /\
  mlflow w' = mlflow w /\ orion w' = orion w.
Proof.
  intros [ms [st Hw]].
  unfold epoch_body, bind, run_batches, true_div, int_true_div.
  destruct (env e) as [err0 p|tb db p].
  { intro H. injection H as _ <-. cbn. auto. }
  cbn [fst snd].
  destruct (sumZ (map snd tb) =? 0) eqn:Ht.
  { unfold raise. intro H. injection H as _ <-. cbn. auto. }
  destruct (sumZ (map snd db) =? 0) eqn:Hd.
  { unfold raise, ret. intro H. injection H as _ <-. cbn. auto. }
  apply Z.eqb_neq in Ht. rewrite (sumZ_nonempty tb Ht).
  unfold ret, log_metric. cbn [disk writes net mlflow orion].
  destruct (improves _ _); unfold torch_save, write_stats, ret;
    cbn [disk writes net mlflow orion]; rewrite Hw;
    cbn [disk writes net mlflow orion]; discriminate.
Qed.

(** ** The epoch loop *)

Section Loop.

Variable env : collaborators.
Variables patience max_epoch : Z.

Lemma for_range_S n e v w :
  for_range env patience (S n) e v w =
  match epoch_body env patience e v w with
  | Returns (v', true) w' => Returns v' w'
  | Returns (v', false) w' => for_range env patience n (e + 1) v' w'
  | Raises err w' => Raises err w'
  end.
Proof.
  cbn [for_range]. unfold bind.
  destruct (epoch_body env patience e v w) as [[v' [|]] w'|]; reflexivity.
Qed.

Lemma loop_reaches_le e0 v0 w0 e v w :
  loop_reaches env patience max_epoch e0 v0 w0 e v w -> e0 <= e.
Proof.
  induction 1; lia.
Qed.

(** The loop from its entry is the loop from any state it reaches. *)
Lemma for_range_reaches e0 v0 w0 e v w :
  loop_reaches env patience max_epoch e0 v0 w0 e v w ->
  for_range env patience (Z.to_nat (max_epoch - e0)) e0 v0 w0 =
  for_range env patience (Z.to_nat (max_epoch - e)) e v w.
Proof.
  induction 1 as [|e v w v' w' Hr IH Hlt Hb]; [reflexivity|].
  rewrite IH.
  replace (Z.to_nat (max_epoch - e))
    with (S (Z.to_nat (max_epoch - (e + 1)))) by lia.
  rewrite for_range_S, Hb. reflexivity.
Qed.

(** A property of the variables and the world that every iteration keeps
    holds wherever the loop stands. *)
Lemma loop_reaches_invariant (I : locals -> world -> Prop) e0 v0 w0 e v w :
  (forall e v w v' b w',
      I v w -> epoch_body env patience e v w = Returns (v', b) w' ->
      I v' w') ->
  I v0 w0 ->
  loop_reaches env patience max_epoch e0 v0 w0 e v w ->
  I v w.
Proof.
  intros Hstep H0. induction 1; eauto.
Qed.

End Loop.

(** The loop looks at the collaborators one epoch at a time. *)
Lemma epoch_body_ext env env' patience e v w :
  env e = env' e ->
  epoch_body env patience e v w = epoch_body env' patience e v w.
Proof.
  intro H. unfold epoch_body. rewrite H. reflexivity.
Qed.

Lemma loop_reaches_ext env env' patience max_epoch e0 v0 w0 e v w :
  (forall i, e0 <= i < e -> env' i = env i) ->
  loop_reaches env patience max_epoch e0 v0 w0 e v w ->
  loop_reaches env' patience max_epoch e0 v0 w0 e v w.
Proof.
  intros Hagree Hr. induction Hr as [|e v w v' w' Hr IH Hlt Hb].
  - constructor.
  - pose proof (loop_reaches_le _ _ _ _ _ _ _ _ _ Hr) as Hle.
    econstructor.
    + apply IH. intros i Hi. apply Hagree. lia.
    + exact Hlt.
    + rewrite <- Hb. apply epoch_body_ext. apply Hagree. lia.
Qed.

(** ** [reload_model], case by case *)

Lemma reload_model_cases start_from_scratch w :
  reload_model start_from_scratch w =
  match disk w with
  | Missing =>
      Returns None
        {| disk := Directory None None; writes := writes w ++ [MakeDirs];
           net := net w; mlflow := mlflow w; orion := orion w |}
  | Directory None _ => Returns None w
  | Directory (Some a) st =>
      if start_from_scratch then Returns None w
      else match a, st with
           | Unloadable err, _ => Raises err w
           | Snapshot p, None => Raises FileNotFoundError (restart w p)
           | Snapshot p, Some s => Returns (Some s) (restart w p)
           end
  end.
Proof.
  unfold reload_model, bind, exists_saved_model, exists_output, makedirs,
    load_state_dict, load_stats, ret, restart.
  destruct (disk w) as [|[[p|err]|] [s|]] eqn:Hw;
    destruct start_from_scratch; cbn; rewrite ?Hw; reflexivity.
Qed.

Lemma pytorch_train_impl_reaches env max_epoch patience sfs w e v w1 :
  run_reaches env max_epoch patience sfs w e v w1 ->
  pytorch_train_impl env max_epoch patience sfs w =
  match for_range env patience (Z.to_nat (max_epoch - e)) e v w1 with
  | Returns v' w' =>
      match v_epoch v' with
      | None => Raises UnboundLocalError w'
      | Some _ =>
          Returns (v_best_dev_metric v')
            (final_world (log_metric "best_dev_metric"
                            (v_best_dev_metric v') w'))
      end
  | Raises err w' => Raises err w'
  end.
Proof.
  intros [s [w0 [Hs Hr]]].
  unfold pytorch_train_impl, bind. rewrite Hs.
  unfold loop_and_finish, bind.
  rewrite (for_range_reaches _ _ _ _ _ _ _ _ _ Hr).
  destruct (for_range _ _ _ _ _ _) as [v' w'|]; [|reflexivity].
  destruct (v_epoch v'); reflexivity.
Qed.

(** ** What a completed epoch leaves *)

Lemma epoch_body_inv env patience e v w r w' :
  epoch_body env patience e v w = Returns r w' ->
  exists tb db p ms st,
    env e = Passes tb db p /\ countable tb db /\ disk w = Directory ms st /\
    let m := dev_metric_of db in
    let imp := improves m (v_best_dev_metric v) in
    let v' := locals_after_epoch v imp e m in
    r = (v', v_not_improving_since v' >=? patience) /\
    w' = world_after_epoch w ms imp p (avg_loss_of tb) m
           {| best_dev_metric := v_best_dev_metric v'; epoch := e + 1 |}.
Proof.
  intro H.
  destruct (epoch_body_returns _ _ _ _ _ _ _ H)
    as [tb [db [p [ms [st [He [Hc Hw]]]]]]].
  exists tb, db, p, ms, st.
  split; [exact He|]. split; [exact Hc|]. split; [exact Hw|]. split.
  - rewrite (epoch_body_passes _ patience _ v _ _ _ _ _ _ He Hc Hw) in H.
    injection H as <- _. reflexivity.
  - rewrite (epoch_body_passes _ patience _ v _ _ _ _ _ _ He Hc Hw) in H.
    injection H as _ <-. reflexivity.
Qed.

Lemma epoch_body_persisted env patience e v w v' b w' :
  epoch_body env patience e v w = Returns (v', b) w' ->
  persisted w' =
  Some {| best_dev_metric := v_best_dev_metric v'; epoch := e + 1 |}.
Proof.
  intro H. apply epoch_body_inv in H.
  destruct H as [tb [db [p [ms [st [_ [_ [_ [Hr ->]]]]]]]]].
  injection Hr as -> _. reflexivity.
Qed.

Lemma reload_model_standing sfs w s w0 :
  reload_model sfs w = Returns s w0 -> standing (initial_locals s) w0.
Proof.
  rewrite reload_model_cases. unfold standing, saved_artifact.
  destruct (disk w) as [|[[p|err]|] [s0|]] eqn:Hw; destruct sfs;
    intro H; try discriminate; injection H as <- <-; cbn; rewrite ?Hw;
    eauto 6.
Qed.

Lemma epoch_body_standing env patience e v w v' b w' :
  standing v w ->
  epoch_body env patience e v w = Returns (v', b) w' ->
  standing v' w'.
Proof.
  intros [_ Hm] H. apply epoch_body_inv in H.
  destruct H as [tb [db [p [ms [st [_ [_ [Hw [Hr ->]]]]]]]]].
  injection Hr as -> _. unfold standing, saved_artifact. cbn. split; [eauto|].
  destruct (improves _ _) eqn:Hi; [eauto|].
  right. apply improves_false in Hi. destruct Hi as [b0 [Hb _]].
  destruct Hm as [Hn|[p0 Hp0]]; [congruence|].
  unfold saved_artifact in Hp0. rewrite Hw in Hp0. eauto.
Qed.

Lemma run_reaches_standing env max_epoch patience sfs w e v w1 :
  run_reaches env max_epoch patience sfs w e v w1 -> standing v w1.
Proof.
  intros [s [w0 [Hs Hr]]].
  eapply loop_reaches_invariant; [| |exact Hr].
  - intros. eapply epoch_body_standing; eauto.
  - eapply reload_model_standing; eauto.
Qed.

(** ** Resuming *)

Lemma written_stats_app (l1 l2 : list disk_write) :
  written_stats (l1 ++ l2) = written_stats l1 ++ written_stats l2.
Proof.
  induction l1 as [|[| |s] l1 IH]; simpl; rewrite ?IH; reflexivity.
Qed.

(** The loop that enters at epoch [e] never looks at an earlier one. *)
Lemma for_range_ext_from env env2 patience n :
  forall e v w,
    (forall i, e <= i -> env2 i = env i) ->
    for_range env2 patience n e v w = for_range env patience n e v w.
Proof.
  induction n as [|n IH]; intros e v w Hagree; [reflexivity|].
  rewrite !for_range_S.
  rewrite (epoch_body_ext env2 env) by (apply Hagree; lia).
  destruct (epoch_body env patience e v w) as [[v1 [|]] w1|]; try reflexivity.
  apply IH. intros i Hi. apply Hagree. lia.
Qed.

(** What one completed epoch adds to the sink and to the disk. *)
Lemma epoch_body_record env patience e v w v1 brk w1 :
  epoch_body env patience e v w = Returns (v1, brk) w1 ->
  exists tb db p,
    env e = Passes tb db p /\
    emitted "dev_metric" (mlflow w1) =
      emitted "dev_metric" (mlflow w) ++ [Some (dev_metric_of db)] /\
    written_stats (writes w1) =
      written_stats (writes w)
      ++ [ {| best_dev_metric := v_best_dev_metric v1; epoch := e + 1 |} ] /\
    v_best_dev_metric v1 =
      (if improves (dev_metric_of db) (v_best_dev_metric v)
       then Some (dev_metric_of db) else v_best_dev_metric v) /\
    (exists m1, v_best_dev_metric v1 = Some m1 /\
                forall b, v_best_dev_metric v = Some b -> (b <= m1)%Q) /\
    exists ms st, disk w1 = Directory ms st.
Proof.
  intro Hb. apply epoch_body_inv in Hb.
  destruct Hb as [tb [db [p [ms [st [He [_ [_ [Hr ->]]]]]]]]].
  injection Hr as -> _. exists tb, db, p. split; [exact He|].
  cbn [world_after_epoch mlflow writes disk locals_after_epoch
       v_best_dev_metric].
  split; [apply emitted_epoch|].
  split.
  { rewrite written_stats_app. destruct (improves _ _); reflexivity. }
  split; [reflexivity|].
  split; [|eauto].
  destruct (improves (dev_metric_of db) (v_best_dev_metric v)) eqn:Hi.
  - exists (dev_metric_of db). split; [reflexivity|].
    intros b Hbest. apply improves_true in Hi.
    destruct Hi as [Hn|[b' [Hb' Hlt]]]; [congruence|].
    assert (b' = b) as -> by congruence. apply Qlt_le_weak. exact Hlt.
  - apply improves_false in Hi. destruct Hi as [b [Hbest _]].
    exists b. split; [exact Hbest|].
    intros b' Hb'. assert (b' = b) as -> by congruence. apply Qle_refl.
Qed.

(** The loop that enters at epoch [e], however it ends: what it emits
    under [dev_metric] and the state records it writes come after what was
    there; the records say [epoch = e + 1], [e + 2], ... in this order,
    and none holds a best metric below the one the loop entered with. *)
Lemma for_range_records env patience n :
  forall e v w,
    (exists ms st, disk w = Directory ms st) ->
    exists ds rs,
      emitted "dev_metric"
        (mlflow (final_world (for_range env patience n e v w))) =
        emitted "dev_metric" (mlflow w) ++ ds /\
      written_stats (writes (final_world (for_range env patience n e v w))) =
        written_stats (writes w) ++ rs /\
      map epoch rs =
        map (fun i => e + 1 + Z.of_nat i) (seq 0 (List.length rs)) /\
      (forall b, v_best_dev_metric v = Some b ->
                 Forall (fun r => exists m, best_dev_metric r = Some m /\
                                            (b <= m)%Q) rs).
Proof.
  induction n as [|n IH]; intros e v w Hdir.
  - exists [], []. cbn. rewrite !app_nil_r. auto.
  - rewrite for_range_S.
    destruct (epoch_body env patience e v w) as [[v1 brk] w1|err w1] eqn:Hb.
    + destruct (epoch_body_record _ _ _ _ _ _ _ _ Hb)
        as [tb [db [p [_ [Hd [Hw [_ [[m1 [Hm1 Hmono]] Hdir1]]]]]]]].
      destruct brk.
      * exists [Some (dev_metric_of db)],
               [ {| best_dev_metric := v_best_dev_metric v1;
                    epoch := e + 1 |} ].
        cbn [final_world]. split; [exact Hd|]. split; [exact Hw|].
        split; [cbn; f_equal; lia|].
        intros b Hbest. constructor; [|constructor].
        exists m1. split; [exact Hm1|]. apply Hmono. exact Hbest.
      * destruct (IH (e + 1) v1 w1 Hdir1) as [ds [rs [Hd' [Hw' [He' Hall]]]]].
        exists (Some (dev_metric_of db) :: ds),
               ({| best_dev_metric := v_best_dev_metric v1;
                   epoch := e + 1 |} :: rs).
        split; [rewrite Hd', Hd, <- app_assoc; reflexivity|].
        split; [rewrite Hw', Hw, <- app_assoc; reflexivity|].
        split.
        { cbn [map List.length seq epoch]. f_equal; [lia|].
          rewrite He', <- seq_shift, map_map. apply map_ext.
          intro i. lia. }
        intros b Hbest. constructor.
        { exists m1. split; [exact Hm1|]. apply Hmono. exact Hbest. }
        eapply Forall_impl; [|apply (Hall m1 Hm1)].
        cbn. intros r [m [Hr Hle]]. exists m. split; [exact Hr|].
        eapply Qle_trans; [apply Hmono; exact Hbest|exact Hle].
    + destruct (epoch_body_raises _ _ _ _ _ _ _ Hdir Hb) as [_ [Hw [Hm _]]].
      exists [], []. cbn [final_world]. rewrite Hw, Hm, !app_nil_r.
      cbn. auto.
Qed.

(** What follows the loop changes neither the disk nor what was emitted
    under [dev_metric]. *)
Lemma loop_and_finish_final env max_epoch patience start v w :
  let wl := final_world
              (for_range env patience (Z.to_nat (max_epoch - start))
                 start v w) in
  let wf := final_world (loop_and_finish env max_epoch patience start v w) in
  writes wf = writes wl /\
  emitted "dev_metric" (mlflow wf) = emitted "dev_metric" (mlflow wl).
Proof.
  unfold loop_and_finish, bind.
  destruct (for_range _ _ _ _ _ _) as [v' w'|err w'];
    [destruct (v_epoch v')|];
    unfold ret, raise; cbn [final_world log_metric writes mlflow]; auto.
  split; [reflexivity|]. rewrite emitted_app. exact (app_nil_r _).
Qed.

(** C1. When epoch [e] of a run completes, the state record on disk holds
    [epoch = e + 1] and the best metric of the loop at that point, next to
    a saved model that loads.  A later process over the same output
    location with [start_from_scratch = False], whatever its collaborators
    and configuration and however it ends, reads that very record back and
    leaves the disk as it is; it looks at no epoch before [e + 1]; the
    records it writes continue the old ones with [epoch = e + 2],
    [e + 3], ... and none holds a best metric below the one read back; and
    if it has epoch [e + 1] to run and that epoch goes through, this is the
    first epoch it runs, judged against the best metric read back. *)
Theorem resume_after_completed_epoch
    env max_epoch patience sfs w e v w1 v' brk w2 :
  run_reaches env max_epoch patience sfs w e v w1 ->
  epoch_body env patience e v w1 = Returns (v', brk) w2 ->
  let s := {| best_dev_metric := v_best_dev_metric v'; epoch := e + 1 |} in
  persisted w2 = Some s /\
  exists p,
    saved_artifact w2 = Some (Snapshot p) /\
    forall p0 env' max_epoch' patience',
      let resumed := pytorch_train_impl env' max_epoch' patience' false
                       (restart w2 p0) in
      reload_model false (restart w2 p0) = Returns (Some s) (restart w2 p) /\
      disk (restart w2 p) = disk w2 /\
      (forall env'',
          (forall i, e + 1 <= i -> env'' i = env' i) ->
          pytorch_train_impl env'' max_epoch' patience' false (restart w2 p0)
          = resumed) /\
      (exists b0 ds rs,
          v_best_dev_metric v' = Some b0 /\
          emitted "dev_metric" (mlflow (final_world resumed)) =
            emitted "dev_metric" (mlflow w2) ++ ds /\
          written_stats (writes (final_world resumed)) =
            written_stats (writes w2) ++ rs /\
          map epoch rs =
            map (fun i => e + 2 + Z.of_nat i) (seq 0 (List.length rs)) /\
          Forall (fun r => exists m, best_dev_metric r = Some m /\
                                     (b0 <= m)%Q) rs) /\
      (e + 1 < max_epoch' ->
       forall tb db p',
         env' (e + 1) = Passes tb db p' ->
         countable tb db ->
         exists ds rs,
           emitted "dev_metric" (mlflow (final_world resumed)) =
             emitted "dev_metric" (mlflow w2)
             ++ Some (dev_metric_of db) :: ds /\
           written_stats (writes (final_world resumed)) =
             written_stats (writes w2)
             ++ {| best_dev_metric :=
                     (if improves (dev_metric_of db) (v_best_dev_metric v')
                      then Some (dev_metric_of db)
                      else v_best_dev_metric v');
                   epoch := e + 2 |} :: rs).
Proof.
  intros Hr Hb s.
  pose proof (epoch_body_persisted _ _ _ _ _ _ _ _ Hb) as Hp.
  split; [exact Hp|].
  pose proof (run_reaches_standing _ _ _ _ _ _ _ _ Hr) as Hst.
  pose proof (epoch_body_standing _ _ _ _ _ _ _ _ Hst Hb) as [_ Hm].
  assert (Hsome : exists m, v_best_dev_metric v' = Some m).
  { destruct (epoch_body_record _ _ _ _ _ _ _ _ Hb)
      as [tb [db [p [_ [_ [_ [_ [[m1 [Hm1 _]] _]]]]]]]].
    eauto. }
  destruct Hsome as [b0 Hbest].
  destruct Hm as [Hn|[p Hart]]; [congruence|].
  exists p. split; [exact Hart|].
  intros p0 env' max' patience' resumed.
  assert (Hreload :
    reload_model false (restart w2 p0) = Returns (Some s) (restart w2 p)).
  { rewrite reload_model_cases. unfold persisted in Hp.
    unfold saved_artifact in Hart. cbn [restart disk].
    destruct (disk w2) as [|ms st]; [discriminate|].
    rewrite Hart, Hp. reflexivity. }
  assert (Hdir : exists ms st, disk (restart w2 p) = Directory ms st).
  { unfold persisted in Hp. cbn [restart disk].
    destruct (disk w2) as [|ms st]; [discriminate|eauto]. }
  assert (Hrun : forall env0,
    pytorch_train_impl env0 max' patience' false (restart w2 p0) =
    loop_and_finish env0 max' patience' (e + 1) (initial_locals (Some s))
      (restart w2 p)).
  { intro env0. unfold pytorch_train_impl, bind. rewrite Hreload.
    reflexivity. }
  pose proof (loop_and_finish_final env' max' patience' (e + 1)
                (initial_locals (Some s)) (restart w2 p)) as Hfin.
  cbn zeta in Hfin. rewrite <- (Hrun env') in Hfin. fold resumed in Hfin.
  destruct Hfin as [Hfw Hfd].
  split; [exact Hreload|]. split; [reflexivity|].
  split.
  { intros env'' Hagree. unfold resumed. rewrite !Hrun.
    unfold loop_and_finish, bind.
    rewrite (for_range_ext_from env' env'') by exact Hagree.
    reflexivity. }
  split.
  { destruct (for_range_records env' patience' (Z.to_nat (max' - (e + 1)))
                (e + 1) (initial_locals (Some s)) (restart w2 p) Hdir)
      as [ds [rs [Hd [Hw [He Hall]]]]].
    exists b0, ds, rs. split; [exact Hbest|].
    rewrite Hfw, Hfd. split; [exact Hd|]. split; [exact Hw|].
    split.
    { rewrite He. apply map_ext. intro i. lia. }
    apply Hall. exact Hbest. }
  intros Hlt tb db p' He' Hc.
  rewrite Hfw, Hfd.
  replace (Z.to_nat (max' - (e + 1)))
    with (S (Z.to_nat (max' - (e + 1 + 1)))) by lia.
  rewrite for_range_S.
  destruct Hdir as [ms [st Hdisk]].
  rewrite (epoch_body_passes _ patience' _ (initial_locals (Some s)) _ _ _ _
             _ _ He' Hc Hdisk).
  set (m := dev_metric_of db).
  set (v1 := locals_after_epoch (initial_locals (Some s))
               (improves m (v_best_dev_metric (initial_locals (Some s))))
               (e + 1) m).
  set (w3 := world_after_epoch _ _ _ _ _ _ _).
  assert (Hd3 : emitted "dev_metric" (mlflow w3) =
                emitted "dev_metric" (mlflow w2) ++ [Some m]).
  { unfold w3. cbn [world_after_epoch mlflow restart].
    apply emitted_epoch. }
  assert (Hw3 : written_stats (writes w3) =
                written_stats (writes w2)
                ++ [ {| best_dev_metric :=
                          (if improves m (v_best_dev_metric v')
                           then Some m else v_best_dev_metric v');
                        epoch := e + 2 |} ]).
  { unfold w3. cbn [world_after_epoch writes restart].
    rewrite written_stats_app.
    replace (e + 1 + 1) with (e + 2) by lia.
    unfold v1. cbn [locals_after_epoch v_best_dev_metric initial_locals s
                     best_dev_metric].
    destruct (improves m (v_best_dev_metric v')); reflexivity. }
  destruct (v_not_improving_since v1 >=? patience').
  - exists [], []. cbn [final_world]. auto.
  - destruct (for_range_records env' patience'
                (Z.to_nat (max' - (e + 1 + 1))) (e + 1 + 1) v1 w3)
      as [ds [rs [Hd [Hw _]]]].
    { unfold w3. cbn. eauto. }
    exists ds, rs. rewrite Hd, Hw, Hd3, Hw3, <- !app_assoc. auto.
Qed.

(** A run of one epoch from an empty location, then a resumed one. *)
Lemma resume_after_completed_epoch_witness :
  let env := scripted [pass 2 5 10 [1#1]; pass 1 6 10 [2#1]]%Q in
  let w1 := final_world (reload_model false (boot Missing [])) in
  let v := initial_locals None in
  let w2 := final_world (epoch_body env 5 0 v w1) in
  persisted w2 =
    Some {| best_dev_metric := Some (double 0.5); epoch := 0 + 1 |} /\
  reload_model false (restart w2 []) =
    Returns (Some {| best_dev_metric := Some (double 0.5); epoch := 0 + 1 |})
      (restart w2 [1#1]%Q) /\
  exists ds rs,
    written_stats
      (writes (final_world (pytorch_train_impl env 2 5 false
                              (restart w2 [])))) =
    written_stats (writes w2)
    ++ {| best_dev_metric :=
            (if improves (dev_metric_of [(6, 10)]) (Some (double 0.5))
             then Some (dev_metric_of [(6, 10)]) else Some (double 0.5));
          epoch := 0 + 2 |} :: rs /\
    emitted "dev_metric"
      (mlflow (final_world (pytorch_train_impl env 2 5 false
                              (restart w2 [])))) =
    emitted "dev_metric" (mlflow w2) ++ Some (dev_metric_of [(6, 10)]) :: ds.
Proof.
  intros env w1 v w2.
  assert (Hreach : run_reaches env 2 5 false (boot Missing []) 0 v w1).
  { exists None, w1. split; [reflexivity|]. apply reaches_start. }
  assert (Hbody : epoch_body env 5 0 v w1 =
                  Returns ({| v_best_dev_metric := Some (double 0.5);
                              v_not_improving_since := 0;
                              v_epoch := Some 0 |}, false) w2)
    by (vm_compute; reflexivity).
  destruct (resume_after_completed_epoch _ _ _ _ _ _ _ _ _ _ _ Hreach Hbody)
    as [Hp [p [Hart Hres]]].
  split; [exact Hp|].
  assert (Hp1 : p = [1#1]%Q).
  { assert (Ha : saved_artifact w2 = Some (Snapshot [1#1]%Q))
      by (vm_compute; reflexivity).
    congruence. }
  subst p.
  destruct (Hres [] env 2 5) as [Hre [_ [_ [_ Hfirst]]]].
  split; [exact Hre|].
  destruct (Hfirst ltac:(lia) [((1#1)%Q, 4)] [(6, 10)] [2#1]%Q eq_refl)
    as [ds [rs [Hd Hw]]].
  { split; discriminate. }
  exists ds, rs. split; [exact Hw|exact Hd].
Defined.

(** ** Early stopping *)

(** [k] epochs in a row that do not improve on [b], the last of which
    brings the streak to [patience]: the loop runs exactly these and
    breaks, whatever the collaborators would do afterwards. *)
Lemma for_range_stale env patience b (k : nat) :
  forall n e v w,
    (k < n)%nat ->
    (exists ms st, disk w = Directory ms st) ->
    v_best_dev_metric v = Some b ->
    v_not_improving_since v + Z.of_nat (S k) = patience ->
    (forall i, 0 <= i < Z.of_nat (S k) ->
               exists m, epoch_scores env (e + i) m /\ (m <= b)%Q) ->
    exists w',
      persisted w' =
        Some {| best_dev_metric := Some b; epoch := e + Z.of_nat (S k) |} /\
      List.length (emitted "dev_metric" (mlflow w')) =
        (List.length (emitted "dev_metric" (mlflow w)) + S k)%nat /\
      forall env2,
        (forall i, 0 <= i < Z.of_nat (S k) -> env2 (e + i) = env (e + i)) ->
        for_range env2 patience n e v w =
        Returns {| v_best_dev_metric := Some b;
                   v_not_improving_since := patience;
                   v_epoch := Some (e + Z.of_nat k) |} w'.
Proof.
  induction k as [|k IH]; intros n e v w Hn [ms [st Hw]] Hbest Hnis Hstale.
  - destruct n as [|n]; [lia|].
    destruct (Hstale 0 ltac:(lia)) as [m [[tb [db [p [He [Hc Hm]]]]] Hle]].
    rewrite Z.add_0_r in He.
    assert (Himp : improves (dev_metric_of db) (v_best_dev_metric v) = false).
    { apply improves_false. exists b. rewrite Hm. auto. }
    eexists. split; [|split].
    3:{ intros env2 Hagree. rewrite for_range_S.
        specialize (Hagree 0 ltac:(lia)). rewrite Z.add_0_r in Hagree.
        rewrite (epoch_body_ext env2 env) by exact Hagree.
        rewrite (epoch_body_passes _ patience _ v _ _ _ _ _ _ He Hc Hw).
        rewrite Himp. unfold locals_after_epoch.
        cbn [v_not_improving_since v_best_dev_metric].
        replace (v_not_improving_since v + 1) with patience by lia.
        rewrite Hbest, Z.add_0_r.
        replace (patience >=? patience) with true
          by (symmetry; apply Z.geb_le; lia).
        reflexivity. }
    + unfold persisted. cbn. repeat f_equal; lia.
    + cbn [world_after_epoch mlflow]. rewrite emitted_epoch, length_app.
      reflexivity.
  - destruct n as [|n]; [lia|].
    destruct (Hstale 0 ltac:(lia)) as [m [[tb [db [p [He [Hc Hm]]]]] Hle]].
    rewrite Z.add_0_r in He.
    assert (Himp : improves (dev_metric_of db) (v_best_dev_metric v) = false).
    { apply improves_false. exists b. rewrite Hm. auto. }
    pose (v1 := locals_after_epoch v false e (dev_metric_of db)).
    pose (w1 := world_after_epoch w ms false p (avg_loss_of tb)
                  (dev_metric_of db)
                  {| best_dev_metric := v_best_dev_metric v1;
                     epoch := e + 1 |}).
    assert (Hk : (k < n)%nat) by lia.
    assert (Hd1 : exists ms st, disk w1 = Directory ms st) by (cbn; eauto).
    assert (Hn1 : v_not_improving_since v1 + Z.of_nat (S k) = patience).
    { unfold v1, locals_after_epoch. cbn [v_not_improving_since]. lia. }
    assert (Hs1 : forall i, 0 <= i < Z.of_nat (S k) ->
                  exists m, epoch_scores env (e + 1 + i) m /\ (m <= b)%Q).
    { intros i Hi. replace (e + 1 + i) with (e + (i + 1)) by lia.
      apply Hstale. lia. }
    destruct (IH n (e + 1) v1 w1 Hk Hd1 Hbest Hn1 Hs1)
      as [w' [Hp [Hlen Hrun]]].
    exists w'. split; [|split].
    + rewrite Hp.
      replace (e + 1 + Z.of_nat (S k)) with (e + Z.of_nat (S (S k))) by lia.
      reflexivity.
    + rewrite Hlen. unfold w1. cbn [world_after_epoch mlflow].
      rewrite emitted_epoch, length_app. cbn [List.length]. lia.
    + intros env2 Hagree. rewrite for_range_S.
      pose proof (Hagree 0 ltac:(lia)) as H0. rewrite Z.add_0_r in H0.
      rewrite (epoch_body_ext env2 env) by exact H0.
      rewrite (epoch_body_passes _ patience _ v _ _ _ _ _ _ He Hc Hw).
      rewrite Himp. fold v1. fold w1.
      replace (v_not_improving_since v1 >=? patience) with false.
      2:{ symmetry. rewrite Z.geb_leb. apply Z.leb_gt. lia. }
      rewrite Hrun.
      * replace (e + 1 + Z.of_nat k) with (e + Z.of_nat (S k)) by lia.
        reflexivity.
      * intros i Hi. replace (e + 1 + i) with (e + (i + 1)) by lia.
        apply Hagree. lia.
Qed.

Lemma run_reaches_ext env env' max_epoch patience sfs w e v w1 :
  (forall i, i < e -> env' i = env i) ->
  run_reaches env max_epoch patience sfs w e v w1 ->
  run_reaches env' max_epoch patience sfs w e v w1.
Proof.
  intros Hagree [s [w0 [Hs Hr]]]. exists s, w0. split; [exact Hs|].
  eapply loop_reaches_ext; [|exact Hr].
  intros i Hi. apply Hagree. lia.
Qed.

(** C2. In a run with patience [P >= 1], let the loop stand at the top of
    epoch [e] with an empty streak and best metric [b], and let the epochs
    [e], ..., [e + P - 1] go through with metrics that do not exceed [b].
    Then the run returns [b]; the record on disk has [epoch = e + P], so
    the state of the [P]-th epoch was persisted; exactly [P] epochs were
    run from there; and the run is the same whatever the collaborators
    would do from epoch [e + P] on, which is never run.  With patience 1
    and metrics 0.7, 0.7, 0.9 the run stops after the second epoch with
    best metric 0.7: 0.9 is never emitted and the record says
    [epoch = 2]. *)
Theorem early_stop_after_patience :
  (forall env max_epoch patience sfs w e v w1 b,
      1 <= patience ->
      run_reaches env max_epoch patience sfs w e v w1 ->
      v_not_improving_since v = 0 ->
      v_best_dev_metric v = Some b ->
      e + patience <= max_epoch ->
      (forall i, 0 <= i < patience ->
                 exists m, epoch_scores env (e + i) m /\ (m <= b)%Q) ->
      exists w2,
        persisted w2 =
          Some {| best_dev_metric := Some b; epoch := e + patience |} /\
        List.length (emitted "dev_metric" (mlflow w2)) =
          (List.length (emitted "dev_metric" (mlflow w1))
           + Z.to_nat patience)%nat /\
        forall env2,
          (forall i, i < e + patience -> env2 i = env i) ->
          pytorch_train_impl env2 max_epoch patience sfs w =
          Returns (Some b) w2)
  /\
  pytorch_train_impl patience_scenario 3 1 false (boot Missing []) =
  Returns (Some (double 0.7))
    {| disk := Directory (Some (Snapshot [1#1]%Q))
                 (Some {| best_dev_metric := Some (double 0.7); epoch := 2 |});
       writes := [MakeDirs; SaveModel [1#1]%Q;
                  WriteStats {| best_dev_metric := Some (double 0.7); epoch := 1 |};
                  WriteStats {| best_dev_metric := Some (double 0.7); epoch := 2 |}];
       net := [2#1]%Q;
       mlflow := [("dev_metric"%string, Some (double 0.7));
                  ("loss"%string, Some (double 0.5));
                  ("dev_metric"%string, Some (double 0.7));
                  ("loss"%string, Some (double 0.25));
                  ("best_dev_metric"%string, Some (double 0.7))];
       orion := [] |}.
Proof.
  split; [|reflexivity].
  intros env max_epoch patience sfs w e v w1 b HP Hr Hnis Hbest Hmax Hstale.
  pose proof (run_reaches_standing _ _ _ _ _ _ _ _ Hr) as [Hdir _].
  pose (k := Z.to_nat (patience - 1)).
  assert (Hk : Z.of_nat (S k) = patience) by (unfold k; lia).
  assert (Hn : (k < Z.to_nat (max_epoch - e))%nat) by (unfold k; lia).
  assert (Hnis' : v_not_improving_since v + Z.of_nat (S k) = patience)
    by lia.
  rewrite <- Hk in Hstale.
  destruct (for_range_stale env patience b k (Z.to_nat (max_epoch - e))
              e v w1 Hn Hdir Hbest Hnis' Hstale) as [w' [Hp [Hlen Hrun]]].
  exists (final_world (log_metric "best_dev_metric" (Some b) w')).
  split; [|split].
  - rewrite Hk in Hp. exact Hp.
  - cbn [log_metric final_world mlflow].
    rewrite emitted_app, length_app, Hlen.
    change (emitted "dev_metric" [("best_dev_metric"%string, Some b)])
      with (@nil (option Q)).
    cbn [List.length]. lia.
  - intros env2 Hagree.
    assert (Hr2 : run_reaches env2 max_epoch patience sfs w e v w1).
    { eapply run_reaches_ext; [|exact Hr]. intros i Hi. apply Hagree. lia. }
    rewrite (pytorch_train_impl_reaches _ _ _ _ _ _ _ _ Hr2).
    rewrite Hrun; [reflexivity|].
    intros i Hi. apply Hagree. lia.
Qed.

(** The second epoch of the scenario is a streak of one. *)
Lemma early_stop_after_patience_witness :
  exists w2,
    persisted w2 = Some {| best_dev_metric := Some (double 0.7); epoch := 1 + 1 |} /\
    pytorch_train_impl patience_scenario 3 1 false (boot Missing []) =
    Returns (Some (double 0.7)) w2.
Proof.
  pose (w0 := final_world (reload_model false (boot Missing []))).
  pose (r := epoch_body patience_scenario 1 0 (initial_locals None) w0).
  pose (v := {| v_best_dev_metric := Some (double 0.7);
                v_not_improving_since := 0;
                v_epoch := Some 0 |}).
  assert (Hr : run_reaches patience_scenario 3 1 false (boot Missing [])
                 1 v (final_world r)).
  { exists None, w0. split; [reflexivity|].
    apply (reaches_next _ _ _ _ _ _ 0 (initial_locals None) w0);
      [apply reaches_start | lia | reflexivity]. }
  assert (Hstale : forall i, 0 <= i < 1 ->
            exists m, epoch_scores patience_scenario (1 + i) m /\
                      (m <= double 0.7)%Q).
  { intros i Hi. assert (i = 0) as -> by lia.
    exists (double 0.7). split.
    - exists [((1#1)%Q, 4)], [(7, 10)], [2#1]%Q.
      split; [reflexivity|]. split; [|reflexivity].
      split; discriminate.
    - apply Qle_refl. }
  destruct (proj1 early_stop_after_patience patience_scenario 3 1 false
              (boot Missing []) 1 v (final_world r) (double 0.7)
              ltac:(lia) Hr eq_refl eq_refl ltac:(lia) Hstale)
    as [w2 [Hp [_ Hrun]]].
  exists w2. split; [exact Hp|]. apply Hrun. reflexivity.
Defined.

(** The streak is never negative where the loop of a run stands. *)
Lemma run_reaches_streak env max_epoch patience sfs w e v w1 :
  run_reaches env max_epoch patience sfs w e v w1 ->
  0 <= v_not_improving_since v.
Proof.
  intros [s [w0 [Hs Hr]]].
  apply (loop_reaches_invariant env patience max_epoch
           (fun v _ => 0 <= v_not_improving_since v) _ _ _ _ _ _)
    with (3 := Hr).
  - intros e1 v1 w2 v' b w' Hv Hb. apply epoch_body_inv in Hb.
    destruct Hb as [tb [db [p [ms [st [_ [_ [_ [Hr' _]]]]]]]]].
    injection Hr' as -> _. cbn.
    destruct (improves _ _); lia.
  - cbn. lia.
Qed.

(** ** The improvement check *)

(** C3. Let the loop of a run stand at the top of epoch [e], and let the
    epoch go through with validation metric [m] and weights [p].  The model
    is written to disk in that epoch exactly when the best metric is absent
    or [m] is strictly greater than it; in that case the best metric becomes
    [m] and the streak 0; otherwise the best metric and the model on disk
    stay and the streak grows by one, in particular when [m] equals the
    best metric.  The metrics are doubles and are compared as doubles: two
    fractions that round to the same double, such as 80000001/120000002
    and 80000003/120000005, are equal metrics, and the second is no
    improvement on the first.  With max epoch 3, patience 5 and metrics
    0.5, 0.6, 0.55 the model is saved in epochs 0 and 1 only, the run
    returns 0.6, and the loop ends by exhausting its range, with a streak
    of 1. *)
Theorem improvement_check :
  (forall env max_epoch patience sfs w e v w1 tb db p,
      run_reaches env max_epoch patience sfs w e v w1 ->
      env e = Passes tb db p ->
      countable tb db ->
      let m := dev_metric_of db in
      let improved :=
        v_best_dev_metric v = None \/
        exists b, v_best_dev_metric v = Some b /\ (b < m)%Q in
      exists v' w2,
        epoch_body env patience e v w1 =
          Returns (v', v_not_improving_since v' >=? patience) w2 /\
        (improved <->
         saved_models (writes w2) = saved_models (writes w1) ++ [p]) /\
        (improved <-> v_not_improving_since v' = 0) /\
        (improved ->
         v_best_dev_metric v' = Some m /\
         v_not_improving_since v' = 0 /\
         saved_artifact w2 = Some (Snapshot p)) /\
        (~ improved ->
         v_best_dev_metric v' = v_best_dev_metric v /\
         v_not_improving_since v' = v_not_improving_since v + 1 /\
         saved_models (writes w2) = saved_models (writes w1) /\
         saved_artifact w2 = saved_artifact w1) /\
        (forall b, v_best_dev_metric v = Some b -> (m == b)%Q ->
                   v_not_improving_since v' = v_not_improving_since v + 1))
  /\
  pytorch_train_impl improvement_scenario 3 5 false (boot Missing []) =
  Returns (Some (double 0.6))
    {| disk := Directory (Some (Snapshot [2#1]%Q))
                 (Some {| best_dev_metric := Some (double 0.6); epoch := 3 |});
       writes := [MakeDirs;
                  SaveModel [1#1]%Q;
                  WriteStats {| best_dev_metric := Some (double 0.5); epoch := 1 |};
                  SaveModel [2#1]%Q;
                  WriteStats {| best_dev_metric := Some (double 0.6); epoch := 2 |};
                  WriteStats {| best_dev_metric := Some (double 0.6); epoch := 3 |}];
       net := [3#1]%Q;
       mlflow := [("dev_metric"%string, Some (double 0.5));
                  ("loss"%string, Some (double 0.5));
                  ("dev_metric"%string, Some (double 0.6));
                  ("loss"%string, Some (double 0.25));
                  ("dev_metric"%string, Some (double 0.55));
                  ("loss"%string, Some (double 0.25));
                  ("best_dev_metric"%string, Some (double 0.6))];
       orion := [] |}
  /\
  (exists w',
    for_range improvement_scenario 5 (Z.to_nat (3 - 0)) 0 (initial_locals None)
      (final_world (reload_model false (boot Missing []))) =
    Returns {| v_best_dev_metric := Some (double 0.6);
               v_not_improving_since := 1;
               v_epoch := Some 2 |} w')
  /\
  (dev_metric_of [(80000001, 120000002)] =
     dev_metric_of [(80000003, 120000005)] /\
   improves (dev_metric_of [(80000003, 120000005)])
     (Some (dev_metric_of [(80000001, 120000002)])) = false).
Proof.
  split; [|split; [vm_compute; reflexivity|
           split; [eexists; vm_compute; reflexivity|
                   split; vm_compute; reflexivity]]].
  intros env max_epoch patience sfs w e v w1 tb db p Hr He Hc m improved.
  pose proof (run_reaches_standing _ _ _ _ _ _ _ _ Hr) as [[ms [st Hw]] _].
  pose proof (run_reaches_streak _ _ _ _ _ _ _ _ Hr) as Hnn.
  assert (Hiff : improves m (v_best_dev_metric v) = true <-> improved)
    by apply improves_true.
  do 2 eexists. split.
  { apply (epoch_body_passes _ patience _ v _ _ _ _ _ _ He Hc Hw). }
  fold m. unfold world_after_epoch, locals_after_epoch, saved_artifact.
  cbn [writes disk v_best_dev_metric v_not_improving_since].
  rewrite Hw.
  destruct (improves m (v_best_dev_metric v)) eqn:Hi.
  - assert (Himp : improved) by (apply Hiff; reflexivity).
    split; [|split; [|split; [|split]]].
    + split; [intros _|intros _; exact Himp].
      rewrite saved_models_app. reflexivity.
    + split; [reflexivity|intros _; exact Himp].
    + intros _. auto.
    + intro Hn. contradiction.
    + intros b Hb Heq. exfalso.
      destruct Himp as [Hn|[b' [Hb' Hlt]]]; [congruence|].
      assert (b' = b) as -> by congruence.
      rewrite Heq in Hlt. exact (Qlt_irrefl _ Hlt).
  - assert (Hnot : ~ improved).
    { intro Himp. apply Hiff in Himp. discriminate. }
    split; [|split; [|split; [|split]]].
    + split; [intro Himp; contradiction|].
      rewrite saved_models_app. cbn [saved_models]. rewrite app_nil_r.
      intro Heq. exfalso.
      apply (f_equal (@List.length _)) in Heq.
      rewrite length_app in Heq. cbn [List.length] in Heq. lia.
    + split; [intro Himp; contradiction|]. intro H0. exfalso. lia.
    + intro Himp. contradiction.
    + intros _. rewrite saved_models_app. cbn [saved_models].
      rewrite app_nil_r. auto.
    + intros. reflexivity.
Qed.

(** The second epoch of the scenario improves on the first. *)
Lemma improvement_check_witness :
  exists v' w2,
    epoch_body improvement_scenario 5 1
      {| v_best_dev_metric := Some (double 0.5);
         v_not_improving_since := 0;
         v_epoch := Some 0 |}
      (final_world
         (epoch_body improvement_scenario 5 0 (initial_locals None)
            (final_world (reload_model false (boot Missing [])))))
    = Returns (v', v_not_improving_since v' >=? 5) w2 /\
    v_best_dev_metric v' = Some (double 0.6) /\
    v_not_improving_since v' = 0 /\
    saved_artifact w2 = Some (Snapshot [2#1]%Q).
Proof.
  pose (w0 := final_world (reload_model false (boot Missing []))).
  pose (r := epoch_body improvement_scenario 5 0 (initial_locals None) w0).
  pose (v := {| v_best_dev_metric := Some (double 0.5);
                v_not_improving_since := 0;
                v_epoch := Some 0 |}).
  assert (Hr : run_reaches improvement_scenario 3 5 false (boot Missing [])
                 1 v (final_world r)).
  { exists None, w0. split; [reflexivity|].
    apply (reaches_next _ _ _ _ _ _ 0 (initial_locals None) w0);
      [apply reaches_start | lia | reflexivity]. }
  assert (Hc : countable [((1#1)%Q, 4)] [(6, 10)]) by (split; discriminate).
  destruct (proj1 improvement_check improvement_scenario 3 5 false
              (boot Missing []) 1 v (final_world r)
              [((1#1)%Q, 4)] [(6, 10)] [2#1]%Q Hr eq_refl Hc)
    as [v' [w2 [Hb [_ [_ [Himp _]]]]]].
  exists v', w2. split; [exact Hb|].
  apply Himp. right. exists (double 0.5). split; [reflexivity|].
  vm_compute. reflexivity.
Defined.

(** ** Processes over one output location *)

Lemma Sorted_snoc (qs : list Q) (q : Q) :
  Sorted Qle qs -> Forall (fun x => (x <= q)%Q) qs -> Sorted Qle (qs ++ [q]).
Proof.
  induction 1 as [|a l Hs IH Hhd]; intro Hall; cbn.
  - repeat constructor.
  - inversion Hall as [|? ? Ha Hl]; subst. constructor; [auto|].
    destruct Hhd as [|b l Hab]; cbn; constructor; assumption.
Qed.

Lemma tracked_same best w w' :
  disk w' = disk w -> writes w' = writes w ->
  tracked best w -> tracked best w'.
Proof.
  intros Hd Hw [qs [Hq [Hs Hl]]]. exists qs.
  unfold persisted, saved_artifact in *. rewrite Hd, Hw. auto.
Qed.

Lemma tracked_nondecreasing best w :
  tracked best w -> nondecreasing (written_bests (writes w)).
Proof.
  intros [qs [Hq [Hs _]]]. exists qs. auto.
Qed.

Lemma reload_model_tracked sfs best w :
  tracked best w ->
  sfs = false \/ written_bests (writes w) = [] ->
  match reload_model sfs w with
  | Returns s w0 => tracked (v_best_dev_metric (initial_locals s)) w0
  | Raises _ w0 => tracked best w0
  end.
Proof.
  intros [qs [Hq [Hs Hl]]] Hsfs. rewrite reload_model_cases.
  assert (Hempty : saved_artifact w = None -> qs = []).
  { intro Hn. destruct Hl as [|[b [e [_ [_ [Ha _]]]]]]; [assumption|].
    contradiction. }
  assert (Hfresh : forall w0, writes w0 = writes w -> qs = [] ->
                              tracked None w0).
  { intros w0 Hw0 ->. exists []. rewrite Hw0. auto. }
  unfold saved_artifact in Hempty.
  destruct (disk w) as [|[a|] st] eqn:Hw.
  - exists qs. cbn [writes]. rewrite written_bests_app, Hq. cbn.
    rewrite app_nil_r. rewrite (Hempty eq_refl). auto.
  - destruct sfs.
    + apply Hfresh; [reflexivity|].
      destruct Hsfs as [Hf|Hw0]; [discriminate|].
      rewrite Hw0 in Hq. destruct qs; [reflexivity|discriminate].
    + destruct a as [p|err].
      * destruct st as [s|].
        -- exists qs. cbn [restart writes]. split; [exact Hq|].
           split; [exact Hs|].
           destruct Hl as [|[b [e [_ [Hp [Ha Hall]]]]]]; [auto|].
           right. exists b, e. unfold persisted, saved_artifact in *.
           cbn [restart disk]. rewrite Hw in *.
           injection Hp as ->. cbn. auto.
        -- apply (tracked_same best w); [reflexivity|reflexivity|].
           exists qs. auto.
      * exists qs. auto.
  - apply Hfresh; [reflexivity|]. apply Hempty. reflexivity.
Qed.

Lemma epoch_body_tracked env patience e v w v' brk w' :
  standing v w ->
  tracked (v_best_dev_metric v) w ->
  epoch_body env patience e v w = Returns (v', brk) w' ->
  tracked (v_best_dev_metric v') w'.
Proof.
  intros Hst [qs [Hq [Hs Hl]]] Hb.
  pose proof (epoch_body_standing _ _ _ _ _ _ _ _ Hst Hb) as [_ Hm'].
  pose proof (epoch_body_persisted _ _ _ _ _ _ _ _ Hb) as Hp'.
  apply epoch_body_inv in Hb.
  destruct Hb as [tb [db [p [ms [st [_ [_ [Hw [Hr ->]]]]]]]]].
  injection Hr as -> _.
  set (m := dev_metric_of db) in *.
  destruct (improves m (v_best_dev_metric v)) eqn:Hi.
  - (* improved: [m] is written, above everything written before *)
    exists (qs ++ [m]).
    cbn [world_after_epoch writes]. rewrite written_bests_app, Hq, map_app.
    split; [reflexivity|].
    assert (Hall : Forall (fun q => (q <= m)%Q) qs).
    { destruct Hl as [->|[b [e0 [Hbest [_ [_ Hall]]]]]]; [constructor|].
      apply improves_true in Hi.
      destruct Hi as [Hn|[b' [Hb' Hlt]]]; [congruence|].
      assert (b' = b) as -> by congruence.
      eapply Forall_impl; [|exact Hall]. cbn. intros q Hqb.
      apply Qlt_le_weak. eapply Qle_lt_trans; eassumption. }
    split; [apply Sorted_snoc; assumption|].
    right. exists m, (e + 1). split; [reflexivity|].
    split; [exact Hp'|]. split; [cbn; discriminate|].
    apply Forall_app. split; [exact Hall|].
    constructor; [apply Qle_refl|constructor].
  - (* not improved: the best metric is written again *)
    apply improves_false in Hi. destruct Hi as [b [Hbest Hle]].
    exists (qs ++ [b]).
    cbn [world_after_epoch writes locals_after_epoch v_best_dev_metric].
    rewrite written_bests_app, Hq, map_app, Hbest.
    split; [reflexivity|].
    assert (Hall : Forall (fun q => (q <= b)%Q) qs).
    { destruct Hl as [->|[b' [e0 [Hbest' [_ [_ Hall]]]]]]; [constructor|].
      assert (b' = b) as -> by congruence. exact Hall. }
    split; [apply Sorted_snoc; assumption|].
    right. exists b, (e + 1). split; [reflexivity|].
    split.
    { reflexivity. }
    split.
    { destruct Hm' as [Hn|[p' Hp2]].
      - cbn [locals_after_epoch v_best_dev_metric] in Hn. congruence.
      - unfold saved_artifact in *. cbn in Hp2 |- *. rewrite Hp2.
        discriminate. }
    apply Forall_app. split; [exact Hall|].
    constructor; [apply Qle_refl|constructor].
Qed.

Lemma for_range_tracked env patience n :
  forall e v w,
    standing v w ->
    tracked (v_best_dev_metric v) w ->
    exists best, tracked best (final_world (for_range env patience n e v w)).
Proof.
  induction n as [|n IH]; intros e v w Hst Ht.
  - cbn. eauto.
  - rewrite for_range_S.
    destruct (epoch_body env patience e v w) as [[v' brk] w'|err w'] eqn:Hb.
    + pose proof (epoch_body_standing _ _ _ _ _ _ _ _ Hst Hb) as Hst'.
      pose proof (epoch_body_tracked _ _ _ _ _ _ _ _ Hst Ht Hb) as Ht'.
      destruct brk; [cbn; eauto|]. apply IH; assumption.
    + destruct (epoch_body_raises _ _ _ _ _ _ _ (proj1 Hst) Hb)
        as [Hd [Hw _]].
      cbn. exists (v_best_dev_metric v).
      apply (tracked_same _ w); assumption.
Qed.

(** What follows the loop, and the wrapper [train], write nothing. *)
Lemma loop_and_finish_disk env max_epoch patience start v w :
  let w1 := final_world
              (for_range env patience (Z.to_nat (max_epoch - start))
                 start v w) in
  let w2 := final_world (loop_and_finish env max_epoch patience start v w) in
  disk w2 = disk w1 /\ writes w2 = writes w1.
Proof.
  unfold loop_and_finish, bind.
  destruct (for_range _ _ _ _ _ _) as [v' w'|err w'];
    [destruct (v_epoch v')|]; cbn; auto.
Qed.

Lemma train_disk orion_on env max_epoch patience sfs w :
  let w1 := final_world (pytorch_train_impl env max_epoch patience sfs w) in
  let w2 := final_world (train orion_on env max_epoch patience sfs w) in
  disk w2 = disk w1 /\ writes w2 = writes w1.
Proof.
  unfold train, bind, train_best.
  destruct (pytorch_train_impl _ _ _ _ _) as [[b|] w'|err w']; cbn; auto.
  destruct err; cbn; auto.
  destruct (orion_on && str_contains CUDA_OOM msg); cbn; auto.
Qed.

Lemma run_process_tracked c w best :
  tracked best w ->
  p_start_from_scratch c = false \/ written_bests (writes w) = [] ->
  exists best', tracked best' (run_process c w).
Proof.
  intros Ht Hsfs. unfold run_process.
  destruct c as [orion_on env max_epoch patience sfs p0]. cbn in *.
  destruct (train_disk orion_on env max_epoch patience sfs (restart w p0))
    as [Hd Hw].
  cut (exists best',
         tracked best'
           (final_world
              (pytorch_train_impl env max_epoch patience sfs
                 (restart w p0)))).
  { intros [best' Hb]. exists best'. eapply tracked_same; eassumption. }
  assert (Ht0 : tracked best (restart w p0))
    by (apply (tracked_same best w); [reflexivity|reflexivity|exact Ht]).
  pose proof (reload_model_tracked sfs best (restart w p0) Ht0 Hsfs) as Hre.
  unfold pytorch_train_impl, bind.
  destruct (reload_model sfs (restart w p0)) as [s w0|err w0] eqn:Hs.
  - destruct (loop_and_finish_disk env max_epoch patience (start_epoch s)
                (initial_locals s) w0) as [Hd1 Hw1].
    destruct (for_range_tracked env patience
                (Z.to_nat (max_epoch - start_epoch s)) (start_epoch s)
                (initial_locals s) w0) as [best' Hb].
    + eapply reload_model_standing; eassumption.
    + exact Hre.
    + exists best'. eapply tracked_same; eassumption.
  - cbn. eauto.
Qed.

Lemma run_all_tracked cs :
  forall w best,
    tracked best w ->
    Forall (fun c => p_start_from_scratch c = false) cs ->
    exists best', tracked best' (run_all cs w).
Proof.
  induction cs as [|c cs IH]; intros w best Ht Hall; cbn.
  - eauto.
  - inversion Hall as [|? ? Hc Hcs]; subst.
    destruct (run_process_tracked c w best Ht (or_introl Hc)) as [b1 H1].
    eapply IH; eassumption.
Qed.

(** ** The best metrics written to the state record *)

(** C4, as stated, fails: a restart with [start_from_scratch = True] over
    a saved model forgets the best metric, and the state record goes from
    0.9 down to 0.5. *)
Lemma restart_from_scratch_lowers_best :
  written_bests
    (writes (run_all [first_process; process_from_scratch]
               (boot Missing []))) =
    [Some (double 0.9); Some (double 0.5)] /\
  ~ nondecreasing
      (written_bests
         (writes (run_all [first_process; process_from_scratch]
                    (boot Missing [])))).
Proof.
  assert (H : written_bests
                (writes (run_all [first_process; process_from_scratch]
                           (boot Missing []))) =
              [Some (double 0.9); Some (double 0.5)])
    by (vm_compute; reflexivity).
  split; [exact H|].
  rewrite H.
  assert (Hlt : (double 0.5 < double 0.9)%Q) by (vm_compute; reflexivity).
  generalize dependent (double 0.9). generalize dependent (double 0.5).
  intros y x _ Hlt [qs [Heq Hs]].
  destruct qs as [|a [|b [|c qs]]]; try discriminate.
  injection Heq as <- <-.
  inversion Hs as [|? ? _ Hhd]; subst.
  inversion Hhd as [|? ? Hle]; subst.
  exact (Qlt_not_le _ _ Hlt Hle).
Qed.

(** C4, amended. Over one output location, let a first process be followed
    by any number of restarts, all with [start_from_scratch = False],
    whatever the processes do and however they end.  Then the best metrics
    written to the state record are numbers and none is below the one
    written before it. *)
Theorem written_bests_nondecreasing (c : process) (cs : list process)
    (d : location) (p : state_dict) :
  Forall (fun c => p_start_from_scratch c = false) cs ->
  nondecreasing (written_bests (writes (run_all (c :: cs) (boot d p)))).
Proof.
  intro Hall.
  assert (H0 : tracked None (boot d p)).
  { exists []. cbn. auto. }
  destruct (run_process_tracked c (boot d p) None H0 (or_intror eq_refl))
    as [b1 H1].
  destruct (run_all_tracked cs _ _ H1 Hall) as [b2 H2].
  eapply tracked_nondecreasing. exact H2.
Qed.

Lemma written_bests_nondecreasing_witness :
  nondecreasing
    (written_bests
       (writes (run_all [process_from_scratch; process_resuming]
                  (boot Missing [])))).
Proof.
  apply (written_bests_nondecreasing process_from_scratch
           [process_resuming] Missing []).
  constructor; [reflexivity|constructor].
Defined.

(** ** What a run that returns has done *)

Lemma epoch_body_settled env patience e v w v' brk w' :
  epoch_body env patience e v w = Returns (v', brk) w' -> settled v' w'.
Proof.
  intro Hb.
  pose proof (epoch_body_persisted _ _ _ _ _ _ _ _ Hb) as Hp.
  apply epoch_body_inv in Hb.
  destruct Hb as [tb [db [p [ms [st [_ [_ [_ [Hr _]]]]]]]]].
  injection Hr as -> _. unfold settled. cbn [locals_after_epoch v_epoch].
  rewrite Hp. cbn [locals_after_epoch v_best_dev_metric].
  destruct (improves _ _) eqn:Hi; [eauto|].
  apply improves_false in Hi. destruct Hi as [b [-> _]]. eauto.
Qed.

Lemma for_range_settled env patience n :
  forall e v w v' w',
    settled v w ->
    for_range env patience n e v w = Returns v' w' ->
    settled v' w'.
Proof.
  induction n as [|n IH]; intros e v w v' w' Hs.
  - cbn. unfold ret. intro H. injection H as <- <-. exact Hs.
  - rewrite for_range_S.
    destruct (epoch_body env patience e v w) as [[v1 brk] w1|] eqn:Hb;
      [|discriminate].
    pose proof (epoch_body_settled _ _ _ _ _ _ _ _ Hb) as Hs1.
    destruct brk.
    + intro H. injection H as <- <-. exact Hs1.
    + apply IH. exact Hs1.
Qed.

Lemma quiet_refl w : quiet w w.
Proof. split; reflexivity. Qed.

Lemma quiet_trans w1 w2 w3 : quiet w1 w2 -> quiet w2 w3 -> quiet w1 w3.
Proof. intros [H1 H2] [H3 H4]. split; congruence. Qed.

Lemma reload_model_quiet sfs w :
  quiet w (final_world (reload_model sfs w)).
Proof.
  rewrite reload_model_cases.
  destruct (disk w) as [|[[p|err]|] [s|]]; destruct sfs; cbn;
    split; reflexivity.
Qed.

Lemma epoch_body_quiet env patience e v w :
  (exists ms st, disk w = Directory ms st) ->
  quiet w (final_world (epoch_body env patience e v w)).
Proof.
  intro Hdir.
  destruct (epoch_body env patience e v w) as [r w'|err w'] eqn:Hb.
  - apply epoch_body_inv in Hb.
    destruct Hb as [tb [db [p [ms [st [_ [_ [_ [_ ->]]]]]]]]].
    split; cbn [final_world world_after_epoch mlflow orion]; [reflexivity|].
    rewrite emitted_app. exact (app_nil_r _).
  - destruct (epoch_body_raises _ _ _ _ _ _ _ Hdir Hb) as [_ [_ [Hm Ho]]].
    split; cbn; congruence.
Qed.

Lemma for_range_quiet env patience n :
  forall e v w,
    (exists ms st, disk w = Directory ms st) ->
    quiet w (final_world (for_range env patience n e v w)).
Proof.
  induction n as [|n IH]; intros e v w Hdir.
  - cbn. apply quiet_refl.
  - rewrite for_range_S.
    pose proof (epoch_body_quiet env patience e v w Hdir) as Hq.
    destruct (epoch_body env patience e v w) as [[v1 brk] w1|] eqn:Hb;
      [|exact Hq].
    destruct brk; [exact Hq|].
    eapply quiet_trans; [exact Hq|]. apply IH.
    apply epoch_body_inv in Hb.
    destruct Hb as [tb [db [p [ms [st [_ [_ [_ [_ ->]]]]]]]]].
    cbn. eauto.
Qed.

(** A run of [pytorch_train_impl] that returns: the loop ran at least one
    epoch, the best metric [m] it returns is the one on disk, and the last
    thing the sink got is [m] under [best_dev_metric], the only emission
    of the run under that name. *)
Lemma pytorch_train_impl_returns env max_epoch patience sfs w b w1 :
  pytorch_train_impl env max_epoch patience sfs w = Returns b w1 ->
  exists m e w',
    b = Some m /\
    persisted w1 = Some {| best_dev_metric := Some m; epoch := e + 1 |} /\
    w1 = final_world (log_metric "best_dev_metric" (Some m) w') /\
    quiet w w'.
Proof.
  unfold pytorch_train_impl, bind.
  pose proof (reload_model_quiet sfs w) as Hq0.
  destruct (reload_model sfs w) as [s w0|] eqn:Hs; [|discriminate].
  pose proof (reload_model_standing _ _ _ _ Hs) as [Hdir _].
  unfold loop_and_finish, bind.
  pose proof (for_range_quiet env patience
                (Z.to_nat (max_epoch - start_epoch s)) (start_epoch s)
                (initial_locals s) w0 Hdir) as Hq1.
  destruct (for_range _ _ _ _ _ _) as [v' w'|] eqn:Hf; [|discriminate].
  apply for_range_settled in Hf; [|exact I].
  unfold settled in Hf.
  destruct (v_epoch v') as [e|]; [|discriminate].
  destruct Hf as [m [Hm Hp]]. rewrite Hm. cbn.
  intro H. injection H as <- <-.
  exists m, e, w'. repeat split; try assumption; try reflexivity.
  - apply (quiet_trans _ _ _ Hq0 Hq1).
  - apply (quiet_trans _ _ _ Hq0 Hq1).
Qed.

(** A run of [pytorch_train_impl] that raises has told the tuning client
    nothing and the sink nothing under [best_dev_metric]. *)
Lemma pytorch_train_impl_raises env max_epoch patience sfs w err w1 :
  pytorch_train_impl env max_epoch patience sfs w = Raises err w1 ->
  quiet w w1.
Proof.
  unfold pytorch_train_impl, bind.
  pose proof (reload_model_quiet sfs w) as Hq0.
  destruct (reload_model sfs w) as [s w0|] eqn:Hs.
  - pose proof (reload_model_standing _ _ _ _ Hs) as [Hdir _].
    unfold loop_and_finish, bind.
    pose proof (for_range_quiet env patience
                  (Z.to_nat (max_epoch - start_epoch s)) (start_epoch s)
                  (initial_locals s) w0 Hdir) as Hq1.
    destruct (for_range _ _ _ _ _ _) as [v' w'|].
    + destruct (v_epoch v'); [discriminate|].
      intro H. injection H as _ <-. apply (quiet_trans _ _ _ Hq0 Hq1).
    + intro H. injection H as _ <-. apply (quiet_trans _ _ _ Hq0 Hq1).
  - intro H. injection H as _ <-. exact Hq0.
Qed.

(** With collaborators that go through every epoch left, the loop
    returns, its variable bound if there was an epoch to run. *)
Lemma for_range_progress env patience n :
  forall e v w,
    (exists ms st, disk w = Directory ms st) ->
    (forall i, e <= i < e + Z.of_nat n -> exists m, epoch_scores env i m) ->
    exists v' w',
      for_range env patience n e v w = Returns v' w' /\
      (v_epoch v <> None \/ n <> O -> v_epoch v' <> None).
Proof.
  induction n as [|n IH]; intros e v w [ms [st Hw]] Hall.
  - exists v, w. split; [reflexivity|]. intros [H|H]; [exact H|congruence].
  - destruct (Hall e ltac:(lia)) as [m [tb [db [p [He [Hc _]]]]]].
    rewrite for_range_S.
    rewrite (epoch_body_passes _ patience _ v _ _ _ _ _ _ He Hc Hw).
    destruct (_ >=? patience).
    + do 2 eexists. split; [reflexivity|]. intros _. cbn. discriminate.
    + edestruct IH as [v' [w' [Hf Hv]]]; cycle 2.
      * exists v', w'. split; [exact Hf|]. intros _. apply Hv. left.
        cbn. discriminate.
      * cbn. eauto.
      * intros i Hi. apply Hall. lia.
Qed.

(** ** Final reporting *)

(** C5. When a run reaches final reporting with [best_dev_metric] equal to
    [b], then [b] is a number [m], [train] returns, and what the tuning
    client got in this run is one call with one record, whose value is
    [- m], that is [-1 * m].  [m] is the best metric the loop returned, the
    one in the state record, or the sentinel -999 that stands for it after
    an out-of-memory failure under tuning. *)
Theorem objective_is_negated_best
    orion_on env max_epoch patience sfs w b w1 :
  train_best orion_on env max_epoch patience sfs w = Returns b w1 ->
  exists m,
    b = Some m /\
    train orion_on env max_epoch patience sfs w =
      Returns tt
        {| disk := disk w1; writes := writes w1; net := net w1;
           mlflow := mlflow w1;
           orion := orion w ++ [[ {| obj_name := "dev_metric";
                                     obj_type := "objective";
                                     obj_value := (- m)%Q |} ]] |} /\
    (- m == (-1 # 1) * m)%Q /\
    ((exists e,
         pytorch_train_impl env max_epoch patience sfs w =
           Returns (Some m) w1 /\
         persisted w1 =
           Some {| best_dev_metric := Some m; epoch := e + 1 |})
     \/
     (exists msg,
         pytorch_train_impl env max_epoch patience sfs w =
           Raises (RuntimeError msg) w1 /\
         orion_on = true /\
         str_contains CUDA_OOM msg = true /\
         m = (-999 # 1)%Q)).
Proof.
  intro Hb. unfold train, bind. rewrite Hb.
  unfold train_best in Hb.
  destruct (pytorch_train_impl env max_epoch patience sfs w)
    as [b0 w0|err w0] eqn:Hrun.
  - injection Hb as -> ->.
    destruct (pytorch_train_impl_returns _ _ _ _ _ _ _ Hrun)
      as [m [e [w' [-> [Hp [Hw1 [Ho _]]]]]]].
    exists m. split; [reflexivity|].
    split.
    { cbn. unfold report_results. rewrite Hw1. cbn. rewrite Ho.
      reflexivity. }
    split; [ring|]. left. exists e. auto.
  - destruct err as [msg| | | | |]; try discriminate.
    destruct orion_on; [|discriminate].
    destruct (str_contains CUDA_OOM msg) eqn:Hc; [|discriminate].
    cbn in Hb. injection Hb as <- <-.
    destruct (pytorch_train_impl_raises _ _ _ _ _ _ _ Hrun) as [Ho _].
    exists (-999 # 1)%Q. split; [reflexivity|].
    split.
    { cbn. unfold report_results. rewrite Ho. reflexivity. }
    split; [ring|]. right. exists msg. auto.
Qed.

(** The run of the patience scenario reports -0.7. *)
Lemma objective_is_negated_best_witness :
  exists w1,
    train true patience_scenario 3 1 false (boot Missing []) =
    Returns tt
      {| disk := disk w1; writes := writes w1; net := net w1;
         mlflow := mlflow w1;
         orion := [[ {| obj_name := "dev_metric";
                        obj_type := "objective";
                        obj_value := (- double 0.7)%Q |} ]] |}.
Proof.
  pose (w1 := final_world
                (train_best true patience_scenario 3 1 false
                   (boot Missing []))).
  assert (Hb : train_best true patience_scenario 3 1 false (boot Missing [])
               = Returns (Some (double 0.7)) w1) by (vm_compute; reflexivity).
  destruct (objective_is_negated_best _ _ _ _ _ _ _ _ Hb)
    as [m [Hm [Ht _]]].
  injection Hm as <-. exists w1. exact Ht.
Defined.

(** ** Out of memory *)

(** C6. Let [pytorch_train_impl] raise [err].  If [err] is a
    [RuntimeError] whose message contains "CUDA out of memory" and the
    tuning client is on, the failure is caught, [best_dev_metric] becomes
    -999 and [train] goes on to report, returning normally.  In every other
    case (the client is off, or [err] is not such an error) [train] raises
    [err], in the world where it was raised. *)
Theorem out_of_memory_recovery
    orion_on env max_epoch patience sfs w err w1 :
  pytorch_train_impl env max_epoch patience sfs w = Raises err w1 ->
  let recovered :=
    orion_on = true /\
    exists msg, err = RuntimeError msg /\ str_contains CUDA_OOM msg = true in
  (recovered ->
   train_best orion_on env max_epoch patience sfs w =
     Returns (Some (-999 # 1)%Q) w1 /\
   train orion_on env max_epoch patience sfs w =
     Returns tt
       {| disk := disk w1; writes := writes w1; net := net w1;
          mlflow := mlflow w1;
          orion := orion w1 ++ [[ {| obj_name := "dev_metric";
                                     obj_type := "objective";
                                     obj_value := (999 # 1)%Q |} ]] |}) /\
  (~ recovered ->
   train_best orion_on env max_epoch patience sfs w = Raises err w1 /\
   train orion_on env max_epoch patience sfs w = Raises err w1).
Proof.
  intros Hrun recovered. unfold train, bind, train_best. rewrite Hrun.
  split.
  - intros [-> [msg [-> Hc]]]. rewrite Hc. cbn. auto.
  - intro Hnot.
    destruct err as [msg| | | | |]; auto.
    destruct orion_on; cbn; auto.
    destruct (str_contains CUDA_OOM msg) eqn:Hc; auto.
    exfalso. apply Hnot. split; [reflexivity|]. exists msg. auto.
Qed.

Lemma out_of_memory_recovery_witness :
  train true oom_scenario 3 1 false (boot Missing []) =
    Returns tt
      {| disk := Directory None None; writes := [MakeDirs]; net := [];
         mlflow := [];
         orion := [[ {| obj_name := "dev_metric";
                        obj_type := "objective";
                        obj_value := (999 # 1)%Q |} ]] |}
  /\
  train false oom_scenario 3 1 false (boot Missing []) =
    Raises (RuntimeError
              "CUDA out of memory. Tried to allocate 2.00 GiB (GPU 0)")
      {| disk := Directory None None; writes := [MakeDirs]; net := [];
         mlflow := []; orion := [] |}.
Proof.
  split.
  - refine (proj2 (proj1 (out_of_memory_recovery true oom_scenario 3 1 false
                            (boot Missing []) _ _ eq_refl) _)).
    split; [reflexivity|]. eexists. split; reflexivity.
  - refine (proj2 (proj2 (out_of_memory_recovery false oom_scenario 3 1 false
                            (boot Missing []) _ _ eq_refl) _)).
    intros [H _]. discriminate.
Defined.

(** ** The best metric in the metrics sink *)

(** C7, as stated, fails for the out-of-memory substitution: the run ends
    and reports 999 to the tuning client, and the sink gets nothing, under
    [best_dev_metric] or any other name. *)
Lemma recovered_run_emits_no_best :
  exists w',
    train true oom_scenario 3 1 false (boot Missing []) = Returns tt w' /\
    orion w' = [[ {| obj_name := "dev_metric";
                     obj_type := "objective";
                     obj_value := (999 # 1)%Q |} ]] /\
    mlflow w' = [] /\
    emitted "best_dev_metric" (mlflow w') = [].
Proof.
  eexists. split; [reflexivity|]. cbn. auto.
Qed.

(** C7, amended. Let the epoch loop of a run end, by its range or by the
    break, after at least one completed epoch.  Then the run returns a
    best metric [m], and the last thing the sink got is [m] under
    [best_dev_metric], a name under which the run emitted nothing else;
    [train] adds nothing to the sink.  The runs that return are exactly
    these, and with collaborators that go through every epoch, a run that
    has an epoch to run is one of them.  A run that ends by the
    out-of-memory substitution under tuning emits nothing under
    [best_dev_metric]; nor does a run whose loop ends with no epoch run,
    which raises instead. *)
Theorem best_metric_emitted :
  (forall orion_on env max_epoch patience sfs w s w0 v' w',
      reload_model sfs w = Returns s w0 ->
      for_range env patience (Z.to_nat (max_epoch - start_epoch s))
        (start_epoch s) (initial_locals s) w0 = Returns v' w' ->
      v_epoch v' <> None ->
      exists m w1,
        pytorch_train_impl env max_epoch patience sfs w =
          Returns (Some m) w1 /\
        v_best_dev_metric v' = Some m /\
        mlflow w1 = mlflow w' ++ [("best_dev_metric"%string, Some m)] /\
        emitted "best_dev_metric" (mlflow w') =
          emitted "best_dev_metric" (mlflow w) /\
        mlflow (final_world (train orion_on env max_epoch patience sfs w)) =
          mlflow w1)
  /\
  (forall env max_epoch patience sfs w b w1,
      pytorch_train_impl env max_epoch patience sfs w = Returns b w1 ->
      exists s w0 v' w',
        reload_model sfs w = Returns s w0 /\
        for_range env patience (Z.to_nat (max_epoch - start_epoch s))
          (start_epoch s) (initial_locals s) w0 = Returns v' w' /\
        v_epoch v' <> None)
  /\
  (forall env max_epoch patience sfs w s w0,
      reload_model sfs w = Returns s w0 ->
      start_epoch s < max_epoch ->
      (forall e, start_epoch s <= e < max_epoch ->
                 exists m, epoch_scores env e m) ->
      exists m w1,
        pytorch_train_impl env max_epoch patience sfs w = Returns (Some m) w1)
  /\
  (forall env max_epoch patience sfs w msg w1,
      pytorch_train_impl env max_epoch patience sfs w =
        Raises (RuntimeError msg) w1 ->
      str_contains CUDA_OOM msg = true ->
      exists w2,
        train true env max_epoch patience sfs w = Returns tt w2 /\
        mlflow w2 = mlflow w1 /\
        emitted "best_dev_metric" (mlflow w2) =
          emitted "best_dev_metric" (mlflow w))
  /\
  (forall orion_on env max_epoch patience sfs w s w0,
      reload_model sfs w = Returns s w0 ->
      max_epoch <= start_epoch s ->
      pytorch_train_impl env max_epoch patience sfs w =
        Raises UnboundLocalError w0 /\
      train orion_on env max_epoch patience sfs w =
        Raises UnboundLocalError w0 /\
      mlflow w0 = mlflow w).
Proof.
  split; [|split; [|split; [|split]]].
  - intros orion_on env max_epoch patience sfs w s w0 v' w' Hs Hf Hv.
    pose proof (for_range_settled _ _ _ _ (initial_locals s) _ _ _ I Hf)
      as Hset.
    unfold settled in Hset.
    destruct (v_epoch v') as [e'|] eqn:He'; [|congruence].
    destruct Hset as [m [Hm _]].
    assert (Hrun : pytorch_train_impl env max_epoch patience sfs w =
                   Returns (Some m)
                     (final_world
                        (log_metric "best_dev_metric" (Some m) w'))).
    { unfold pytorch_train_impl, bind. rewrite Hs.
      unfold loop_and_finish, bind. rewrite Hf, He', Hm. reflexivity. }
    exists m. eexists. split; [exact Hrun|]. split; [exact Hm|].
    split; [reflexivity|].
    split.
    { pose proof (reload_model_quiet sfs w) as Hq0. rewrite Hs in Hq0.
      pose proof (reload_model_standing _ _ _ _ Hs) as [Hdir _].
      pose proof (for_range_quiet env patience
                    (Z.to_nat (max_epoch - start_epoch s)) (start_epoch s)
                    (initial_locals s) w0 Hdir) as Hq1.
      rewrite Hf in Hq1.
      exact (proj2 (quiet_trans _ _ _ Hq0 Hq1)). }
    unfold train, bind, train_best. rewrite Hrun. reflexivity.
  - intros env max_epoch patience sfs w b w1.
    unfold pytorch_train_impl, bind.
    destruct (reload_model sfs w) as [s w0|] eqn:Hs; [|discriminate].
    unfold loop_and_finish, bind.
    destruct (for_range _ _ _ _ _ _) as [v' w'|] eqn:Hf; [|discriminate].
    destruct (v_epoch v') as [e'|] eqn:He'; [|discriminate].
    intros _. exists s, w0, v', w'. split; [reflexivity|].
    split; [exact Hf|]. congruence.
  - intros env max_epoch patience sfs w s w0 Hs Hlt Hall.
    unfold pytorch_train_impl, bind. rewrite Hs.
    unfold loop_and_finish, bind.
    pose proof (reload_model_standing _ _ _ _ Hs) as [Hdir _].
    destruct (for_range_progress env patience
                (Z.to_nat (max_epoch - start_epoch s)) (start_epoch s)
                (initial_locals s) w0 Hdir) as [v' [w' [Hf Hv]]].
    { intros i Hi. apply Hall. lia. }
    rewrite Hf.
    pose proof (for_range_settled _ _ _ _ (initial_locals s) _ _ _ I Hf)
      as Hset.
    unfold settled in Hset.
    destruct (v_epoch v') as [e|].
    + destruct Hset as [m [Hm _]]. rewrite Hm. cbn. eauto.
    + exfalso. apply Hv; [|reflexivity]. right. lia.
  - intros env max_epoch patience sfs w msg w1 Hrun Hc.
    destruct (pytorch_train_impl_raises _ _ _ _ _ _ _ Hrun) as [_ Hq].
    unfold train, bind, train_best. rewrite Hrun, Hc. cbn.
    eexists. split; [reflexivity|]. cbn. auto.
  - intros orion_on env max_epoch patience sfs w s w0 Hs Hle.
    assert (Hrun : pytorch_train_impl env max_epoch patience sfs w =
                   Raises UnboundLocalError w0).
    { unfold pytorch_train_impl, bind. rewrite Hs.
      unfold loop_and_finish, bind.
      replace (Z.to_nat (max_epoch - start_epoch s)) with O by lia.
      reflexivity. }
    split; [exact Hrun|].
    split.
    { unfold train, bind, train_best. rewrite Hrun. reflexivity. }
    revert Hs. rewrite reload_model_cases.
    destruct (disk w) as [|[[p|err]|] [s0|]]; destruct sfs;
      intro H; try discriminate; injection H as _ <-; reflexivity.
Qed.

(** The run of the improvement scenario ends with 0.6 in the sink. *)
Lemma best_metric_emitted_witness :
  exists m hist,
    mlflow (final_world
              (pytorch_train_impl improvement_scenario 3 5 false
                 (boot Missing []))) =
      hist ++ [("best_dev_metric"%string, Some m)] /\
    emitted "best_dev_metric" hist = [].
Proof.
  pose (w1 := final_world
                (pytorch_train_impl improvement_scenario 3 5 false
                   (boot Missing []))).
  assert (Hrun : pytorch_train_impl improvement_scenario 3 5 false
                   (boot Missing []) = Returns (Some (double 0.6)) w1)
    by (vm_compute; reflexivity).
  destruct (proj1 (proj2 best_metric_emitted) _ _ _ _ _ _ _ Hrun)
    as [s [w0 [v' [w' [Hs [Hf Hv]]]]]].
  destruct (proj1 best_metric_emitted false _ _ _ _ _ _ _ _ _ Hs Hf Hv)
    as [m [w2 [Hrun2 [_ [Hm [He _]]]]]].
  assert (w2 = w1) as -> by congruence.
  exists m, (mlflow w'). split; [exact Hm|].
  rewrite He. reflexivity.
Defined.

(** ** Initialization *)

(** C8, as stated, fails on the error: there is no error of its own for
    a saved model without its state record.  Initialization then raises the
    [FileNotFoundError] of opening [stats.yaml], and the same error is
    raised where no checkpoint is inconsistent: by [load_stats] in a
    directory that holds no model either, by [load_stats] with no output
    directory at all, and by [write_stats] under a missing directory. *)
Lemma missing_state_error_is_generic :
  reload_model false (boot (Directory (Some (Snapshot [1#1]%Q)) None) []) =
    Raises FileNotFoundError
      (boot (Directory (Some (Snapshot [1#1]%Q)) None) [1#1]%Q)
  /\
  load_stats (boot (Directory None None) []) =
    Raises FileNotFoundError (boot (Directory None None) [])
  /\
  load_stats (boot Missing []) = Raises FileNotFoundError (boot Missing [])
  /\
  write_stats (Some (double 0.5)) 1 (boot Missing []) =
    Raises FileNotFoundError (boot Missing []).
Proof.
  repeat split.
Qed.

(** C8, amended. When initialization, on its resume branch, has found
    and loaded the saved model and the state record is absent,
    [reload_model] raises [FileNotFoundError], the error of opening a
    missing file; [pytorch_train_impl] and [train] raise it too, whatever
    the tuning flag, having run no epoch and written, emitted and reported
    nothing. *)
Theorem state_missing_is_fatal orion_on env max_epoch patience w p :
  disk w = Directory (Some (Snapshot p)) None ->
  reload_model false w = Raises FileNotFoundError (restart w p) /\
  pytorch_train_impl env max_epoch patience false w =
    Raises FileNotFoundError (restart w p) /\
  train orion_on env max_epoch patience false w =
    Raises FileNotFoundError (restart w p).
Proof.
  intro Hw.
  assert (Hre : reload_model false w = Raises FileNotFoundError (restart w p)).
  { rewrite reload_model_cases, Hw. reflexivity. }
  assert (Hrun : pytorch_train_impl env max_epoch patience false w =
                 Raises FileNotFoundError (restart w p)).
  { unfold pytorch_train_impl, bind. rewrite Hre. reflexivity. }
  repeat split; try assumption.
  unfold train, bind, train_best. rewrite Hrun. reflexivity.
Qed.

Lemma state_missing_is_fatal_witness :
  train true improvement_scenario 3 5 false
    (boot (Directory (Some (Snapshot [1#1]%Q)) None) []) =
  Raises FileNotFoundError
    (boot (Directory (Some (Snapshot [1#1]%Q)) None) [1#1]%Q).
Proof.
  exact (proj2 (proj2 (state_missing_is_fatal true improvement_scenario 3 5
                         (boot (Directory (Some (Snapshot [1#1]%Q)) None) [])
                         [1#1]%Q eq_refl))).
Defined.

(** C9. With [start_from_scratch = True] and a saved model at the output
    location, whatever it holds, [reload_model] returns [None] in the very
    world it was called in: the disk is as it was, nothing was written and
    the weights of the model object were not replaced.  The run then
    enters its loop at epoch 0 with no best metric. *)
Theorem fresh_start_leaves_disk w a st :
  disk w = Directory (Some a) st ->
  reload_model true w = Returns None w /\
  start_epoch None = 0 /\
  v_best_dev_metric (initial_locals None) = None /\
  forall env max_epoch patience,
    pytorch_train_impl env max_epoch patience true w =
    loop_and_finish env max_epoch patience 0
      {| v_best_dev_metric := None;
         v_not_improving_since := 0;
         v_epoch := None |} w.
Proof.
  intro Hw.
  assert (Hre : reload_model true w = Returns None w).
  { rewrite reload_model_cases, Hw. reflexivity. }
  repeat split; try assumption.
  intros env max_epoch patience.
  unfold pytorch_train_impl, bind. rewrite Hre. reflexivity.
Qed.

Lemma fresh_start_leaves_disk_witness :
  reload_model true
    (boot (Directory (Some (Unloadable (RuntimeError "size mismatch")))
             (Some {| best_dev_metric := Some 0.9%Q; epoch := 4 |}))
       [7#1]%Q) =
  Returns None
    (boot (Directory (Some (Unloadable (RuntimeError "size mismatch")))
             (Some {| best_dev_metric := Some 0.9%Q; epoch := 4 |}))
       [7#1]%Q).
Proof.
  exact (proj1 (fresh_start_leaves_disk
                  (boot (Directory
                           (Some (Unloadable (RuntimeError "size mismatch")))
                           (Some {| best_dev_metric := Some 0.9%Q;
                                    epoch := 4 |}))
                     [7#1]%Q) _ _ eq_refl)).
Defined.

(** C10. A run that resumes from a state record whose [epoch] is at least
    [max_epoch] runs no epoch: [pytorch_train_impl] raises
    [UnboundLocalError], for the loop variable that the logging after the
    loop reads, whatever the collaborators are; [train] raises it too,
    whatever the tuning flag.  Nothing is written, emitted or reported, and
    the stored best metric is not returned. *)
Theorem resume_past_max_epoch orion_on env max_epoch patience w p s :
  disk w = Directory (Some (Snapshot p)) (Some s) ->
  max_epoch <= epoch s ->
  reload_model false w = Returns (Some s) (restart w p) /\
  for_range env patience (Z.to_nat (max_epoch - start_epoch (Some s)))
    (start_epoch (Some s)) (initial_locals (Some s)) (restart w p) =
    Returns (initial_locals (Some s)) (restart w p) /\
  pytorch_train_impl env max_epoch patience false w =
    Raises UnboundLocalError (restart w p) /\
  train orion_on env max_epoch patience false w =
    Raises UnboundLocalError (restart w p).
Proof.
  intros Hw Hle.
  assert (Hre : reload_model false w = Returns (Some s) (restart w p)).
  { rewrite reload_model_cases, Hw. reflexivity. }
  assert (Hn : Z.to_nat (max_epoch - start_epoch (Some s)) = O)
    by (cbn; lia).
  assert (Hrun : pytorch_train_impl env max_epoch patience false w =
                 Raises UnboundLocalError (restart w p)).
  { unfold pytorch_train_impl, bind. rewrite Hre.
    unfold loop_and_finish, bind. rewrite Hn. reflexivity. }
  split; [exact Hre|]. split; [rewrite Hn; reflexivity|].
  split; [exact Hrun|].
  unfold train, bind, train_best. rewrite Hrun. reflexivity.
Qed.

Lemma resume_past_max_epoch_witness :
  train true improvement_scenario 3 5 false
    (boot (Directory (Some (Snapshot [2#1]%Q))
             (Some {| best_dev_metric := Some 0.6%Q; epoch := 3 |})) []) =
  Raises UnboundLocalError
    (boot (Directory (Some (Snapshot [2#1]%Q))
             (Some {| best_dev_metric := Some 0.6%Q; epoch := 3 |}))
       [2#1]%Q).
Proof.
  refine (proj2 (proj2 (proj2
            (resume_past_max_epoch true improvement_scenario 3 5
               (boot (Directory (Some (Snapshot [2#1]%Q))
                        (Some {| best_dev_metric := Some 0.6%Q;
                                 epoch := 3 |})) [])
               [2#1]%Q {| best_dev_metric := Some 0.6%Q; epoch := 3 |}
               eq_refl _)))).
  simpl. lia.
Defined.


(** * Further properties of the program *)

(** ** Initialization, branch by branch *)

(** X2. Without [best_model.pt], [reload_model] returns [None] whatever
    [start_from_scratch] is and whatever [stats.yaml] holds: a state record
    without a model is ignored, so the run starts at epoch 0 with no best
    metric.  An existing directory is left exactly as it is; a missing one
    is created empty, and that is the only thing written. *)
Theorem reload_model_without_saved_model sfs w :
  saved_artifact w = None ->
  exists w0,
    reload_model sfs w = Returns None w0 /\
    start_epoch None = 0 /\
    v_best_dev_metric (initial_locals None) = None /\
    (forall st, disk w = Directory None st -> w0 = w) /\
    (disk w = Missing ->
     disk w0 = Directory None None /\
     writes w0 = writes w ++ [MakeDirs]) /\
    net w0 = net w /\ mlflow w0 = mlflow w /\ orion w0 = orion w.
Proof.
  intro Hn. rewrite reload_model_cases. unfold saved_artifact in Hn.
  destruct (disk w) as [|[a|] st] eqn:Hw; [|discriminate|].
  - eexists. split; [reflexivity|]. cbn.
    split; [reflexivity|]. split; [reflexivity|].
    split; [intros st H; discriminate|]. auto.
  - exists w. split; [reflexivity|].
    split; [reflexivity|]. split; [reflexivity|].
    split; [reflexivity|]. split; [intro H; discriminate|]. auto.
Qed.

Lemma reload_model_without_saved_model_witness :
  reload_model false
    (boot (Directory None
             (Some {| best_dev_metric := Some 0.9%Q; epoch := 7 |})) []) =
  Returns None
    (boot (Directory None
             (Some {| best_dev_metric := Some 0.9%Q; epoch := 7 |})) []).
Proof.
  destruct (reload_model_without_saved_model false
              (boot (Directory None
                       (Some {| best_dev_metric := Some 0.9%Q;
                                epoch := 7 |})) []) eq_refl)
    as [w0 [Hr [_ [_ [Hsame _]]]]].
  rewrite Hr. rewrite (Hsame _ eq_refl). reflexivity.
Defined.

(** X3. [reload_model] returns a state record exactly on the resume
    branch: [start_from_scratch] is [False], [best_model.pt] loads and
    [stats.yaml] holds that record; the weights of the model object are
    then the saved ones.  Whatever the branch and however the call ends,
    an existing output directory is not altered, nothing is written to it,
    and neither the sink nor the tuning client hears of it. *)
Theorem reload_model_resumes_iff sfs w :
  (forall s w0,
      reload_model sfs w = Returns (Some s) w0 <->
      sfs = false /\
      exists p, disk w = Directory (Some (Snapshot p)) (Some s) /\
                w0 = restart w p) /\
  (forall ms st,
      disk w = Directory ms st ->
      disk (final_world (reload_model sfs w)) = disk w /\
      writes (final_world (reload_model sfs w)) = writes w) /\
  mlflow (final_world (reload_model sfs w)) = mlflow w /\
  orion (final_world (reload_model sfs w)) = orion w.
Proof.
  rewrite reload_model_cases. split; [|split; [|split]].
  - intros s w0. split.
    + destruct (disk w) as [|[[p|err]|] [s0|]]; destruct sfs;
        intro H; try discriminate.
      injection H as <- <-. split; [reflexivity|]. exists p. auto.
    + intros [-> [p [-> ->]]]. reflexivity.
  - intros ms st Hw. rewrite Hw.
    destruct ms as [[p|err]|]; destruct st; destruct sfs; cbn; auto.
  - destruct (disk w) as [|[[p|err]|] [s0|]]; destruct sfs; reflexivity.
  - destruct (disk w) as [|[[p|err]|] [s0|]]; destruct sfs; reflexivity.
Qed.

Lemma reload_model_resumes_iff_witness :
  reload_model false
    (boot (Directory (Some (Snapshot [2#1]%Q))
             (Some {| best_dev_metric := Some 0.6%Q; epoch := 2 |})) []) =
  Returns (Some {| best_dev_metric := Some 0.6%Q; epoch := 2 |})
    (boot (Directory (Some (Snapshot [2#1]%Q))
             (Some {| best_dev_metric := Some 0.6%Q; epoch := 2 |}))
       [2#1]%Q).
Proof.
  apply (proj1 (reload_model_resumes_iff false
                  (boot (Directory (Some (Snapshot [2#1]%Q))
                           (Some {| best_dev_metric := Some 0.6%Q;
                                    epoch := 2 |})) []))).
  split; [reflexivity|]. exists [2#1]%Q. split; reflexivity.
Defined.

(** ** Edge cases of the epoch loop *)

(** X4. An epoch whose training pass or validation pass saw no example,
    an empty loader among them, raises [ZeroDivisionError] before anything
    is emitted or written; the error leaves [pytorch_train_impl] and
    [train], also under tuning, since it is no [RuntimeError]. *)
Theorem zero_examples_raise
    orion_on env max_epoch patience sfs w e v w1 tb db p :
  run_reaches env max_epoch patience sfs w e v w1 ->
  e < max_epoch ->
  env e = Passes tb db p ->
  sumZ (map snd tb) = 0 \/ sumZ (map snd db) = 0 ->
  epoch_body env patience e v w1 = Raises ZeroDivisionError (restart w1 p) /\
  pytorch_train_impl env max_epoch patience sfs w =
    Raises ZeroDivisionError (restart w1 p) /\
  train orion_on env max_epoch patience sfs w =
    Raises ZeroDivisionError (restart w1 p).
Proof.
  intros Hr Hlt He Hz.
  assert (Hb : epoch_body env patience e v w1 =
               Raises ZeroDivisionError (restart w1 p)).
  { unfold epoch_body, bind, run_batches, true_div, int_true_div. rewrite He.
    cbn [fst snd].
    destruct (sumZ (map snd tb) =? 0) eqn:Ht; [reflexivity|].
    destruct Hz as [Hz|Hz]; [apply Z.eqb_neq in Ht; contradiction|].
    rewrite Hz. reflexivity. }
  assert (Hrun : pytorch_train_impl env max_epoch patience sfs w =
                 Raises ZeroDivisionError (restart w1 p)).
  { rewrite (pytorch_train_impl_reaches _ _ _ _ _ _ _ _ Hr).
    replace (Z.to_nat (max_epoch - e))
      with (S (Z.to_nat (max_epoch - (e + 1)))) by lia.
    rewrite for_range_S, Hb. reflexivity. }
  split; [exact Hb|]. split; [exact Hrun|].
  unfold train, bind, train_best. rewrite Hrun. reflexivity.
Qed.

(** A first epoch over an empty validation loader. *)
Lemma zero_examples_raise_witness :
  train true (scripted [Passes [((1#1)%Q, 4)] [] [1#1]%Q]) 3 5 false
    (boot Missing []) =
  Raises ZeroDivisionError
    {| disk := Directory None None; writes := [MakeDirs]; net := [1#1]%Q;
       mlflow := []; orion := [] |}.
Proof.
  pose (env := scripted [Passes [((1#1)%Q, 4)] [] [1#1]%Q]).
  pose (w0 := final_world (reload_model false (boot Missing []))).
  assert (Hr : run_reaches env 3 5 false (boot Missing []) 0
                 (initial_locals None) w0).
  { exists None, w0. split; [reflexivity|]. apply reaches_start. }
  exact (proj2 (proj2 (zero_examples_raise true env 3 5 false
                         (boot Missing []) 0 (initial_locals None) w0
                         [((1#1)%Q, 4)] [] [1#1]%Q Hr ltac:(lia) eq_refl
                         (or_intror eq_refl)))).
Defined.

(** X5. With a patience of zero or less the test after the epoch,
    [not_improving_since >= patience], holds at once: a run that has an
    epoch to run, and whose first epoch goes through, runs that one epoch
    and no other, whether it improved or not. *)
Theorem nonpositive_patience_runs_one_epoch
    env max_epoch patience sfs w s w0 m :
  patience <= 0 ->
  reload_model sfs w = Returns s w0 ->
  start_epoch s < max_epoch ->
  epoch_scores env (start_epoch s) m ->
  exists b w1,
    pytorch_train_impl env max_epoch patience sfs w = Returns (Some b) w1 /\
    persisted w1 =
      Some {| best_dev_metric := Some b; epoch := start_epoch s + 1 |} /\
    emitted "dev_metric" (mlflow w1) =
      emitted "dev_metric" (mlflow w) ++ [Some m].
Proof.
  intros HP Hs Hlt [tb [db [p [He [Hc Hm]]]]].
  pose proof (reload_model_standing _ _ _ _ Hs) as [[ms [st Hw0]] _].
  assert (Hml : mlflow w0 = mlflow w).
  { revert Hs. rewrite reload_model_cases.
    destruct (disk w) as [|[[p'|err]|] [s0|]]; destruct sfs;
      intro H; try discriminate; injection H as _ <-; reflexivity. }
  unfold pytorch_train_impl, bind. rewrite Hs.
  unfold loop_and_finish, bind.
  replace (Z.to_nat (max_epoch - start_epoch s))
    with (S (Z.to_nat (max_epoch - (start_epoch s + 1)))) by lia.
  rewrite for_range_S.
  rewrite (epoch_body_passes _ patience _ (initial_locals s) _ _ _ _ _ _
             He Hc Hw0).
  rewrite Hm.
  set (imp := improves m (v_best_dev_metric (initial_locals s))).
  set (v1 := locals_after_epoch (initial_locals s) imp (start_epoch s) m).
  assert (Hbrk : (v_not_improving_since v1 >=? patience) = true).
  { apply Z.geb_le. unfold v1, locals_after_epoch.
    cbn [v_not_improving_since initial_locals]. destruct imp; lia. }
  rewrite Hbrk.
  assert (Hbest : exists b, v_best_dev_metric v1 = Some b).
  { unfold v1, locals_after_epoch. cbn [v_best_dev_metric].
    destruct imp eqn:Hi; [eauto|].
    apply improves_false in Hi. destruct Hi as [b [Hb _]]. eauto. }
  destruct Hbest as [b Hb].
  cbn [v1 locals_after_epoch v_epoch]. fold v1. rewrite Hb.
  do 2 eexists. split; [reflexivity|].
  cbn [log_metric final_world bind ret]. split.
  - reflexivity.
  - cbn [mlflow world_after_epoch]. rewrite Hml.
    rewrite emitted_app, emitted_epoch.
    change (emitted "dev_metric" [("best_dev_metric"%string, Some b)])
      with (@nil (option Q)).
    apply app_nil_r.
Qed.

(** Patience 0 over the improvement scenario: one epoch, 0.5. *)
Lemma nonpositive_patience_runs_one_epoch_witness :
  exists b w1,
    pytorch_train_impl improvement_scenario 3 0 false (boot Missing []) =
      Returns (Some b) w1 /\
    persisted w1 = Some {| best_dev_metric := Some b; epoch := 0 + 1 |} /\
    emitted "dev_metric" (mlflow w1) = [] ++ [Some (double 0.5)].
Proof.
  apply (nonpositive_patience_runs_one_epoch improvement_scenario 3 0 false
           (boot Missing []) None
           (final_world (reload_model false (boot Missing []))) (double 0.5)).
  - lia.
  - reflexivity.
  - simpl. lia.
  - exists [((2#1)%Q, 4)], [(5, 10)], [1#1]%Q.
    split; [reflexivity|]. split; [|reflexivity]. split; discriminate.
Defined.

(** ** Counting the epochs of a run *)

Lemma emitted_loss_epoch (l : list (string * option Q)) (m loss : option Q) :
  emitted "loss" (l ++ [("dev_metric"%string, m); ("loss"%string, loss)])
  = emitted "loss" l ++ [loss].
Proof.
  rewrite emitted_app. reflexivity.
Qed.

(** What one completed epoch adds: one value under [dev_metric], one under
    [loss], one state record. *)
Lemma epoch_body_counts env patience e v w r w' :
  epoch_body env patience e v w = Returns r w' ->
  List.length (emitted "dev_metric" (mlflow w')) =
    S (List.length (emitted "dev_metric" (mlflow w))) /\
  List.length (emitted "loss" (mlflow w')) =
    S (List.length (emitted "loss" (mlflow w))) /\
  List.length (written_bests (writes w')) =
    S (List.length (written_bests (writes w))).
Proof.
  intro Hb. apply epoch_body_inv in Hb.
  destruct Hb as [tb [db [p [ms [st [_ [_ [_ [_ ->]]]]]]]]].
  cbn [world_after_epoch mlflow writes].
  rewrite emitted_epoch, emitted_loss_epoch, written_bests_app.
  rewrite !length_app. cbn [List.length].
  destruct (improves _ _); cbn [written_bests List.length]; lia.
Qed.

(** The loop, counted: it completes [k] epochs out of the [n] it was
    given; they are the epochs [e], ..., [e + k - 1]; if it raises, it is
    in epoch [e + k], which did not go through. *)
Lemma for_range_account env patience n :
  forall e v w,
    standing v w ->
    exists k : nat,
      (k <= n)%nat /\
      List.length (emitted "dev_metric"
                     (mlflow (final_world (for_range env patience n e v w))))
        = (List.length (emitted "dev_metric" (mlflow w)) + k)%nat /\
      List.length (emitted "loss"
                     (mlflow (final_world (for_range env patience n e v w))))
        = (List.length (emitted "loss" (mlflow w)) + k)%nat /\
      List.length (written_bests
                     (writes (final_world (for_range env patience n e v w))))
        = (List.length (written_bests (writes w)) + k)%nat /\
      (k = O ->
       disk (final_world (for_range env patience n e v w)) = disk w /\
       writes (final_world (for_range env patience n e v w)) = writes w) /\
      (k <> O ->
       exists m p,
         persisted (final_world (for_range env patience n e v w)) =
           Some {| best_dev_metric := Some m; epoch := e + Z.of_nat k |} /\
         saved_artifact (final_world (for_range env patience n e v w)) =
           Some (Snapshot p)) /\
      match for_range env patience n e v w with
      | Returns v' _ =>
          (k = O -> v' = v) /\
          (k <> O -> v_epoch v' = Some (e + Z.of_nat k - 1))
      | Raises _ _ =>
          (k < n)%nat /\ forall m, ~ epoch_scores env (e + Z.of_nat k) m
      end.
Proof.
  induction n as [|n IH]; intros e v w Hst.
  - exists O. cbn. repeat split; auto; try lia; congruence.
  - rewrite for_range_S.
    destruct (epoch_body env patience e v w) as [[v1 brk] w1|err w1] eqn:Hb.
    + (* the epoch goes through *)
      pose proof (epoch_body_counts _ _ _ _ _ _ _ Hb) as [Hd [Hl Hw]].
      pose proof (epoch_body_standing _ _ _ _ _ _ _ _ Hst Hb) as Hst1.
      pose proof (epoch_body_settled _ _ _ _ _ _ _ _ Hb) as Hset.
      assert (Hv1 : v_epoch v1 = Some e).
      { apply epoch_body_inv in Hb.
        destruct Hb as [tb [db [p [ms [st [_ [_ [_ [Hr _]]]]]]]]].
        injection Hr as -> _. reflexivity. }
      unfold settled in Hset. rewrite Hv1 in Hset.
      destruct Hset as [m [Hm Hp]].
      assert (Hart : exists p, saved_artifact w1 = Some (Snapshot p)).
      { destruct Hst1 as [_ [Hn|Hs]]; [congruence|exact Hs]. }
      destruct Hart as [p Hart].
      destruct brk.
      * exists 1%nat. cbn [final_world].
        split; [lia|]. split; [lia|]. split; [lia|]. split; [lia|].
        split; [intro H; discriminate|].
        split; [intros _; exists m, p; auto|].
        split; [intro H; discriminate|].
        intros _. rewrite Hv1. f_equal. lia.
      * destruct (IH (e + 1) v1 w1 Hst1)
          as [k [Hk [Hd' [Hl' [Hw' [Hz [Hnz Hout]]]]]]].
        exists (S k).
        split; [lia|]. split; [lia|]. split; [lia|]. split; [lia|].
        split; [intro H; discriminate|].
        split.
        { intros _. destruct k as [|k].
          - destruct (Hz eq_refl) as [Hdisk _].
            exists m, p. unfold persisted, saved_artifact in *.
            rewrite Hdisk. auto.
          - destruct (Hnz ltac:(discriminate)) as [m' [p' [Hp' Ha']]].
            exists m', p'. split; [|exact Ha'].
            rewrite Hp'. do 2 f_equal. lia. }
        destruct (for_range env patience n (e + 1) v1 w1) as [v' w'|err w'].
        -- destruct Hout as [Hz' Hnz'].
           split; [intro H; discriminate|]. intros _.
           destruct k as [|k].
           ++ rewrite (Hz' eq_refl), Hv1. f_equal. lia.
           ++ rewrite (Hnz' ltac:(discriminate)). f_equal. lia.
        -- destruct Hout as [Hlt Hno]. split; [lia|].
           intros m0 Hsc. apply (Hno m0).
           replace (e + 1 + Z.of_nat k) with (e + Z.of_nat (S k)) by lia.
           exact Hsc.
    + (* the epoch raises *)
      destruct (epoch_body_raises _ _ _ _ _ _ _ (proj1 Hst) Hb)
        as [Hd [Hw [Hm Ho]]].
      exists O. cbn [final_world]. rewrite Hd, Hw, Hm.
      split; [lia|]. split; [lia|]. split; [lia|]. split; [lia|].
      split; [auto|]. split; [intro H; congruence|].
      split; [lia|].
      intros m [tb [db [p [He [Hc _]]]]].
      destruct Hst as [[ms [st Hdisk]] _].
      rewrite Z.add_0_r in He.
      rewrite (epoch_body_passes _ patience _ v _ _ _ _ _ _ He Hc Hdisk)
        in Hb.
      discriminate.
Qed.

(** What [reload_model] leaves alone when it returns. *)
Lemma reload_model_returns_frame sfs w s w0 :
  reload_model sfs w = Returns s w0 ->
  mlflow w0 = mlflow w /\ orion w0 = orion w /\
  written_bests (writes w0) = written_bests (writes w) /\
  saved_models (writes w0) = saved_models (writes w) /\
  saved_artifact w0 = saved_artifact w.
Proof.
  rewrite reload_model_cases. unfold saved_artifact.
  destruct (disk w) as [|[[p|err]|] [s0|]] eqn:Hw; destruct sfs;
    intro H; try discriminate; injection H as _ <-;
    cbn [restart mlflow orion writes disk];
    rewrite ?written_bests_app, ?saved_models_app, ?app_nil_r, ?Hw; auto.
Qed.

(** [pytorch_train_impl] once [reload_model] has returned. *)
Lemma pytorch_train_impl_loop env max_epoch patience sfs w s w0 :
  reload_model sfs w = Returns s w0 ->
  pytorch_train_impl env max_epoch patience sfs w =
  match for_range env patience (Z.to_nat (max_epoch - start_epoch s))
          (start_epoch s) (initial_locals s) w0 with
  | Returns v' w' =>
      match v_epoch v' with
      | None => Raises UnboundLocalError w'
      | Some _ =>
          Returns (v_best_dev_metric v')
            (final_world (log_metric "best_dev_metric"
                            (v_best_dev_metric v') w'))
      end
  | Raises err w' => Raises err w'
  end.
Proof.
  intro Hs. apply pytorch_train_impl_reaches.
  exists s, w0. split; [exact Hs|]. apply reaches_start.
Qed.

(** X6. A run that got past [reload_model] completes some number [k] of
    epochs, at most [max_epoch - start_epoch]; however it ends, it has then
    emitted exactly [k] values under [dev_metric], [k] under [loss], and
    written exactly [k] state records, the last of which says
    [epoch = start_epoch + k]; with [k = 0] the disk is as [reload_model]
    left it.  A run that returns has completed at least one epoch. *)
Theorem epochs_accounted env max_epoch patience sfs w s w0 :
  reload_model sfs w = Returns s w0 ->
  exists k : nat,
    (k <= Z.to_nat (max_epoch - start_epoch s))%nat /\
    List.length
      (emitted "dev_metric"
         (mlflow (final_world
                    (pytorch_train_impl env max_epoch patience sfs w))))
      = (List.length (emitted "dev_metric" (mlflow w)) + k)%nat /\
    List.length
      (emitted "loss"
         (mlflow (final_world
                    (pytorch_train_impl env max_epoch patience sfs w))))
      = (List.length (emitted "loss" (mlflow w)) + k)%nat /\
    List.length
      (written_bests
         (writes (final_world
                    (pytorch_train_impl env max_epoch patience sfs w))))
      = (List.length (written_bests (writes w)) + k)%nat /\
    (k <> O ->
     exists m,
       persisted (final_world
                    (pytorch_train_impl env max_epoch patience sfs w)) =
       Some {| best_dev_metric := Some m;
               epoch := start_epoch s + Z.of_nat k |}) /\
    (k = O ->
     disk (final_world (pytorch_train_impl env max_epoch patience sfs w))
     = disk w0) /\
    ((exists b w1,
         pytorch_train_impl env max_epoch patience sfs w = Returns b w1) ->
     k <> O).
Proof.
  intro Hs.
  destruct (reload_model_returns_frame _ _ _ _ Hs) as [Hm [_ [Hwb _]]].
  pose proof (reload_model_standing _ _ _ _ Hs) as Hst.
  rewrite (pytorch_train_impl_loop _ _ _ _ _ _ _ Hs).
  destruct (for_range_account env patience
              (Z.to_nat (max_epoch - start_epoch s)) (start_epoch s)
              (initial_locals s) w0 Hst)
    as [k [Hk [Hd [Hl [Hw [Hz [Hnz Hout]]]]]]].
  rewrite Hm, Hwb in *.
  exists k. split; [exact Hk|].
  destruct (for_range _ _ _ _ _ _) as [v' w'|err w']; cbn [final_world] in *.
  - destruct Hout as [Hz' Hnz'].
    destruct (v_epoch v') as [e'|] eqn:He'; cbn [final_world log_metric].
    + cbn [mlflow writes]. rewrite !emitted_app, !length_app.
      change (emitted "dev_metric"
                [("best_dev_metric"%string, v_best_dev_metric v')])
        with (@nil (option Q)).
      change (emitted "loss"
                [("best_dev_metric"%string, v_best_dev_metric v')])
        with (@nil (option Q)).
      cbn [List.length]. rewrite !Nat.add_0_r.
      split; [exact Hd|]. split; [exact Hl|]. split; [exact Hw|].
      split; [|split].
      * intro Hk0. destruct (Hnz Hk0) as [m [p [Hp _]]]. exists m. exact Hp.
      * intro Hk0. apply Hz. exact Hk0.
      * intros _ Hk0. rewrite (Hz' Hk0) in He'. discriminate.
    + split; [exact Hd|]. split; [exact Hl|]. split; [exact Hw|].
      split; [|split].
      * intro Hk0. destruct (Hnz Hk0) as [m [p [Hp _]]]. exists m. exact Hp.
      * intro Hk0. apply Hz. exact Hk0.
      * intros [b [w1 H]]. discriminate.
  - split; [exact Hd|]. split; [exact Hl|]. split; [exact Hw|].
    split; [|split].
    + intro Hk0. destruct (Hnz Hk0) as [m [p [Hp _]]]. exists m. exact Hp.
    + intro Hk0. apply Hz. exact Hk0.
    + intros [b [w1 H]]. discriminate.
Qed.

Lemma epochs_accounted_witness :
  exists k : nat,
    (k <= 3)%nat /\
    List.length
      (written_bests
         (writes (final_world
                    (pytorch_train_impl (scripted interrupted_scenario_run)
                       3 5 false (boot Missing [])))))
      = (0 + k)%nat.
Proof.
  destruct (epochs_accounted (scripted interrupted_scenario_run) 3 5 false
              (boot Missing []) None
              (final_world (reload_model false (boot Missing [])))
              eq_refl)
    as [k [Hk [_ [_ [Hw _]]]]].
  exists k. split; [exact Hk|exact Hw].
Defined.

(** ** Failing after a completed epoch *)



(** ** The best metric and the saved model *)

(** One epoch, as far as the best metric goes. *)
Lemma epoch_body_best env patience e v w v1 brk w1 :
  epoch_body env patience e v w = Returns (v1, brk) w1 ->
  exists tb db p,
    env e = Passes tb db p /\
    let dm := dev_metric_of db in
    emitted "dev_metric" (mlflow w1) =
      emitted "dev_metric" (mlflow w) ++ [Some dm] /\
    (exists m1, v_best_dev_metric v1 = Some m1 /\ (dm <= m1)%Q) /\
    (forall b, v_best_dev_metric v = Some b ->
               exists m1, v_best_dev_metric v1 = Some m1 /\ (b <= m1)%Q) /\
    ((v_best_dev_metric v1 = v_best_dev_metric v /\
      saved_artifact w1 = saved_artifact w) \/
     (v_best_dev_metric v1 = Some dm /\
      saved_artifact w1 = Some (Snapshot p))).
Proof.
  intro Hb. apply epoch_body_inv in Hb.
  destruct Hb as [tb [db [p [ms [st [He [_ [Hw [Hr ->]]]]]]]]].
  injection Hr as -> _. exists tb, db, p. split; [exact He|].
  cbn zeta. cbn [world_after_epoch mlflow locals_after_epoch
                  v_best_dev_metric].
  split; [apply emitted_epoch|].
  unfold saved_artifact. cbn [world_after_epoch disk]. rewrite Hw.
  destruct (improves (dev_metric_of db) (v_best_dev_metric v)) eqn:Hi.
  - split; [exists (dev_metric_of db); split; [reflexivity|apply Qle_refl]|].
    split; [|right; auto].
    intros b Hbest. exists (dev_metric_of db). split; [reflexivity|].
    apply improves_true in Hi.
    destruct Hi as [Hn|[b' [Hb' Hlt]]]; [congruence|].
    assert (b' = b) as -> by congruence. apply Qlt_le_weak. exact Hlt.
  - apply improves_false in Hi. destruct Hi as [b [Hbest Hle]].
    split; [exists b; auto|].
    split; [|left; auto].
    intros b' Hb'. exists b'. split; [exact Hb'|apply Qle_refl].
Qed.

(** The loop, as far as the best metric and the saved model go. *)
Lemma for_range_best env patience n :
  forall e v w v' w',
    for_range env patience n e v w = Returns v' w' ->
    exists ds,
      emitted "dev_metric" (mlflow w') =
        emitted "dev_metric" (mlflow w) ++ map Some ds /\
      Forall (fun d => exists m, v_best_dev_metric v' = Some m /\ (d <= m)%Q)
        ds /\
      (forall b, v_best_dev_metric v = Some b ->
                 exists m, v_best_dev_metric v' = Some m /\ (b <= m)%Q) /\
      ((v_best_dev_metric v' = v_best_dev_metric v /\
        saved_artifact w' = saved_artifact w) \/
       (exists e' tb db p,
           e <= e' < e + Z.of_nat n /\
           env e' = Passes tb db p /\
           In (dev_metric_of db) ds /\
           v_best_dev_metric v' = Some (dev_metric_of db) /\
           saved_artifact w' = Some (Snapshot p))).
Proof.
  induction n as [|n IH]; intros e v w v' w'.
  - cbn. unfold ret. intro H. injection H as <- <-.
    exists []. cbn. rewrite app_nil_r.
    split; [reflexivity|]. split; [constructor|].
    split; [|left; auto].
    intros b Hb. exists b. split; [exact Hb|apply Qle_refl].
  - rewrite for_range_S.
    destruct (epoch_body env patience e v w) as [[v1 brk] w1|] eqn:Hb;
      [|discriminate].
    destruct (epoch_body_best _ _ _ _ _ _ _ _ Hb)
      as [tb [db [p [He [Hd [[m1 [Hm1 Hle1]] [Hmono Hcase]]]]]]].
    cbn zeta in *.
    assert (Hhere :
      (v_best_dev_metric v1 = v_best_dev_metric v /\
       saved_artifact w1 = saved_artifact w) \/
      (exists e' tb' db' p',
          e <= e' < e + Z.of_nat (S n) /\
          env e' = Passes tb' db' p' /\
          In (dev_metric_of db') [dev_metric_of db] /\
          v_best_dev_metric v1 = Some (dev_metric_of db') /\
          saved_artifact w1 = Some (Snapshot p'))).
    { destruct Hcase as [Hsame|[Hnew Hart]]; [left; exact Hsame|].
      right. exists e, tb, db, p. split; [lia|]. split; [exact He|].
      split; [left; reflexivity|]. auto. }
    destruct brk.
    + intro H. injection H as <- <-.
      exists [dev_metric_of db]. split; [exact Hd|].
      split; [constructor; [eauto|constructor]|].
      split; [exact Hmono|exact Hhere].
    + intro Hf. destruct (IH _ _ _ _ _ Hf) as [ds [Hd' [Hall [Hmono' Hc']]]].
      destruct (Hmono' _ Hm1) as [m [Hm Hle]].
      exists (dev_metric_of db :: ds).
      split.
      { rewrite Hd', Hd, <- app_assoc. reflexivity. }
      split.
      { constructor; [|exact Hall]. exists m. split; [exact Hm|].
        eapply Qle_trans; eassumption. }
      split.
      { intros b Hbest. destruct (Hmono _ Hbest) as [m1' [Hm1' Hle']].
        assert (m1' = m1) as -> by congruence.
        exists m. split; [exact Hm|]. eapply Qle_trans; eassumption. }
      destruct Hc' as [[Hb' Ha']|[e' [tb' [db' [p' [Hr' [He' [Hin [Hb' Ha']]]]]]]]].
      * destruct Hhere as [[Hb1 Ha1]|[e1 [tb1 [db1 [p1 [Hr1 [He1 [Hin1 [Hb1 Ha1]]]]]]]]].
        -- left. split; congruence.
        -- right. exists e1, tb1, db1, p1. split; [exact Hr1|].
           split; [exact He1|]. split.
           { destruct Hin1 as [<-|[]]. left. reflexivity. }
           split; congruence.
      * right. exists e', tb', db', p'. split; [lia|].
        split; [exact He'|]. split; [right; exact Hin|]. auto.
Qed.

(** X8. The best metric a run returns is the maximum of the best metric
    it started from, if any, and the validation metrics it emitted: it is
    one of them, and none of them exceeds it. *)
Theorem returned_best_is_maximum env max_epoch patience sfs w s w0 b w1 :
  reload_model sfs w = Returns s w0 ->
  pytorch_train_impl env max_epoch patience sfs w = Returns b w1 ->
  exists m ds,
    b = Some m /\
    emitted "dev_metric" (mlflow w1) =
      emitted "dev_metric" (mlflow w) ++ map Some ds /\
    Forall (fun d => (d <= m)%Q) ds /\
    (forall b0, v_best_dev_metric (initial_locals s) = Some b0 ->
                (b0 <= m)%Q) /\
    (v_best_dev_metric (initial_locals s) = Some m \/ In m ds).
Proof.
  intros Hs Hrun.
  destruct (reload_model_returns_frame _ _ _ _ Hs) as [Hml _].
  rewrite (pytorch_train_impl_loop _ _ _ _ _ _ _ Hs) in Hrun.
  destruct (for_range _ _ _ _ _ _) as [v' w'|] eqn:Hf; [|discriminate].
  pose proof (for_range_settled _ _ _ _ (initial_locals s) _ _ _ I Hf)
    as Hset.
  unfold settled in Hset.
  destruct (v_epoch v') as [e'|]; [|discriminate].
  destruct Hset as [m [Hm _]].
  injection Hrun as <- <-.
  destruct (for_range_best _ _ _ _ _ _ _ _ Hf)
    as [ds [Hd [Hall [Hmono Hcase]]]].
  exists m, ds. split; [exact Hm|].
  split.
  { cbn [log_metric final_world mlflow]. rewrite emitted_app, Hd, Hml.
    apply app_nil_r. }
  split.
  { eapply Forall_impl; [|exact Hall]. cbn.
    intros d [m' [Hm' Hle]]. assert (m' = m) as -> by congruence.
    exact Hle. }
  split.
  { intros b0 Hb0. destruct (Hmono _ Hb0) as [m' [Hm' Hle]].
    assert (m' = m) as -> by congruence. exact Hle. }
  destruct Hcase as [[Hsame _]|[e1 [tb [db [p [_ [_ [Hin [Hbest _]]]]]]]]].
  - left. congruence.
  - right. assert (dev_metric_of db = m) as <- by congruence. exact Hin.
Qed.

Lemma returned_best_is_maximum_witness :
  exists m ds,
    Some (double 0.6) = Some m /\
    emitted "dev_metric"
      (mlflow (final_world
                 (pytorch_train_impl improvement_scenario 3 5 false
                    (boot Missing [])))) = [] ++ map Some ds /\
    Forall (fun d => (d <= m)%Q) ds.
Proof.
  pose (w1 := final_world
                (pytorch_train_impl improvement_scenario 3 5 false
                   (boot Missing []))).
  assert (Hrun : pytorch_train_impl improvement_scenario 3 5 false
                   (boot Missing []) = Returns (Some (double 0.6)) w1)
    by (vm_compute; reflexivity).
  destruct (returned_best_is_maximum improvement_scenario 3 5 false
              (boot Missing []) None
              (final_world (reload_model false (boot Missing [])))
              _ _ eq_refl Hrun)
    as [m [ds [Hm [Hd [Hall _]]]]].
  exists m, ds. auto.
Defined.

(** X9. When a run returns, the state record holds the best metric it
    returns, and the model on disk goes with it: either no epoch of the run
    improved on the metric it started from, and [best_model.pt] is what it
    was before the run; or [best_model.pt] holds the weights of an epoch of
    the run whose validation metric is the best metric returned. *)
Theorem saved_model_is_of_best_epoch
    env max_epoch patience sfs w s w0 b w1 :
  reload_model sfs w = Returns s w0 ->
  pytorch_train_impl env max_epoch patience sfs w = Returns b w1 ->
  (exists e, persisted w1 = Some {| best_dev_metric := b; epoch := e |}) /\
  ((b = v_best_dev_metric (initial_locals s) /\
    saved_artifact w1 = saved_artifact w) \/
   (exists e' tb db p,
       start_epoch s <= e' < max_epoch /\
       env e' = Passes tb db p /\
       b = Some (dev_metric_of db) /\
       saved_artifact w1 = Some (Snapshot p))).
Proof.
  intros Hs Hrun.
  destruct (reload_model_returns_frame _ _ _ _ Hs) as [_ [_ [_ [_ Ha]]]].
  rewrite (pytorch_train_impl_loop _ _ _ _ _ _ _ Hs) in Hrun.
  destruct (for_range _ _ _ _ _ _) as [v' w'|] eqn:Hf; [|discriminate].
  pose proof (for_range_settled _ _ _ _ (initial_locals s) _ _ _ I Hf)
    as Hset.
  unfold settled in Hset.
  destruct (v_epoch v') as [e'|]; [|discriminate].
  destruct Hset as [m [Hm Hp]].
  injection Hrun as <- <-.
  split.
  { exists (e' + 1). rewrite Hm. exact Hp. }
  destruct (for_range_best _ _ _ _ _ _ _ _ Hf)
    as [ds [_ [_ [_ Hcase]]]].
  unfold saved_artifact in *. cbn [log_metric final_world disk].
  destruct Hcase as [[Hsame Hart]|[e1 [tb [db [p [Hr [He [_ [Hb Hart]]]]]]]]].
  - left. split; [exact Hsame|]. rewrite Hart. exact Ha.
  - right. exists e1, tb, db, p. split; [lia|]. auto.
Qed.

Lemma saved_model_is_of_best_epoch_witness :
  exists e' tb db p,
    start_epoch None <= e' < 3 /\
    improvement_scenario e' = Passes tb db p /\
    Some (double 0.6) = Some (dev_metric_of db) /\
    saved_artifact
      (final_world
         (pytorch_train_impl improvement_scenario 3 5 false
            (boot Missing []))) = Some (Snapshot p).
Proof.
  pose (w1 := final_world
                (pytorch_train_impl improvement_scenario 3 5 false
                   (boot Missing []))).
  assert (Hrun : pytorch_train_impl improvement_scenario 3 5 false
                   (boot Missing []) = Returns (Some (double 0.6)) w1)
    by (vm_compute; reflexivity).
  destruct (saved_model_is_of_best_epoch improvement_scenario 3 5 false
              (boot Missing []) None
              (final_world (reload_model false (boot Missing [])))
              _ _ eq_refl Hrun)
    as [_ [[Hb _]|H]]; [discriminate|exact H].
Defined.

(** ** What the tuning client hears *)

(** X10. [train] reports to the tuning client once or not at all.  When
    it returns, this run's only call of [report_results] holds one record,
    named [dev_metric], of type [objective], whose value is the negated
    best metric; when it raises, nothing was reported. *)
Theorem train_reports_once_or_never
    orion_on env max_epoch patience sfs w :
  match train orion_on env max_epoch patience sfs w with
  | Returns _ w' =>
      exists m w1,
        train_best orion_on env max_epoch patience sfs w =
          Returns (Some m) w1 /\
        orion w' = orion w ++ [[ {| obj_name := "dev_metric";
                                    obj_type := "objective";
                                    obj_value := (- m)%Q |} ]] /\
        disk w' = disk w1 /\ writes w' = writes w1 /\ mlflow w' = mlflow w1
  | Raises _ w' => orion w' = orion w
  end.
Proof.
  unfold train, bind, train_best.
  destruct (pytorch_train_impl env max_epoch patience sfs w)
    as [b w1|err w1] eqn:Hrun.
  - destruct (pytorch_train_impl_returns _ _ _ _ _ _ _ Hrun)
      as [m [e [w' [-> [_ [Hw1 [Ho _]]]]]]].
    cbn. exists m, w1. split; [reflexivity|].
    rewrite Hw1. cbn. rewrite Ho. auto.
  - destruct (pytorch_train_impl_raises _ _ _ _ _ _ _ Hrun) as [Ho _].
    destruct err as [msg| | | | |]; cbn; try exact Ho.
    destruct (orion_on && str_contains CUDA_OOM msg); cbn; [|exact Ho].
    do 2 eexists. split; [reflexivity|]. rewrite Ho. auto.
Qed.

(** ** The out-of-memory test *)

Lemma prefix_app (n h : string) :
  String.prefix n h = true <-> exists post, h = (n ++ post)%string.
Proof.
  revert h. induction n as [|a n IH]; intro h.
  - cbn. destruct h; split; eauto.
  - destruct h as [|b h]; cbn.
    + split; [discriminate|]. intros [post H]. discriminate.
    + destruct (Ascii.ascii_dec a b) as [->|Hne].
      * rewrite IH. split; intros [post H]; exists post.
        -- rewrite H. reflexivity.
        -- injection H as ->. reflexivity.
      * split; [discriminate|]. intros [post H]. injection H as Hab _.
        congruence.
Qed.

(** X11. The test ['CUDA out of memory' in str(err)] is the substring
    test: [str_contains needle hay] holds exactly when [hay] is [needle]
    with some text before it and some text after it. *)
Theorem str_contains_substring (needle hay : string) :
  str_contains needle hay = true <->
  exists pre post, hay = (pre ++ needle ++ post)%string.
Proof.
  split.
  - induction hay as [|a hay IH]; cbn [str_contains];
      rewrite orb_true_iff; intros [H|H].
    + apply prefix_app in H. destruct H as [post H]. exists ""%string, post.
      exact H.
    + discriminate.
    + apply prefix_app in H. destruct H as [post H]. exists ""%string, post.
      exact H.
    + destruct (IH H) as [pre [post ->]]. exists (String a pre), post.
      reflexivity.
  - intros [pre [post ->]].
    induction pre as [|a pre IH].
    + cbn [append].
      assert (Hp : String.prefix needle (needle ++ post) = true)
        by (apply prefix_app; eauto).
      destruct (needle ++ post)%string; cbn [str_contains]; rewrite Hp;
        reflexivity.
    + cbn [append str_contains]. rewrite IH. apply orb_true_r.
Qed.

Lemma str_contains_substring_witness :
  str_contains CUDA_OOM
    "RuntimeError: CUDA out of memory. Tried to allocate 20.00 MiB" = true.
Proof.
  apply (proj2 (str_contains_substring CUDA_OOM
                  "RuntimeError: CUDA out of memory. Tried to allocate 20.00 MiB")).
  exists "RuntimeError: "%string, ". Tried to allocate 20.00 MiB"%string.
  reflexivity.
Defined.

(** ** The validation metric as a fraction *)

Lemma fold_left_add_shift (l : list Z) (a : Z) :
  fold_left Z.add l a = a + fold_left Z.add l 0.
Proof.
  revert a. induction l as [|x l IH]; intro a; cbn.
  - lia.
  - rewrite (IH (a + x)), (IH x). lia.
Qed.

Lemma sumZ_cons (x : Z) (l : list Z) : sumZ (x :: l) = x + sumZ l.
Proof.
  unfold sumZ. cbn. apply fold_left_add_shift.
Qed.

Lemma dev_counts_bounds (db : list (Z * Z)) :
  Forall (fun b => 0 <= fst b <= snd b) db ->
  0 <= sumZ (map fst db) <= sumZ (map snd db).
Proof.
  induction 1 as [|b db Hb _ IH]; cbn [map].
  - unfold sumZ. cbn. lia.
  - rewrite !sumZ_cons. lia.
Qed.

Lemma fraction_in_unit_interval (c t : Z) :
  0 <= c <= t -> t <> 0 -> (0 <= inject_Z c / inject_Z t <= 1)%Q.
Proof.
  intros Hc Ht.
  destruct t as [|tp|tn]; [congruence| |lia].
  unfold Qdiv, Qinv, Qmult, Qle, inject_Z. cbn [Qnum Qden].
  split; cbn; lia.
Qed.

(** Rounding to an integer does not leave an interval with integer
    ends. *)
Lemma round_half_even_bounds (num den N : Z) :
  0 < den -> 0 <= num <= N * den -> 0 <= round_half_even num den <= N.
Proof.
  intros Hden Hnum. unfold round_half_even.
  pose proof (Z.div_mod num den ltac:(lia)) as Hdm.
  pose proof (Z.mod_pos_bound num den Hden) as Hr.
  assert (Hq : 0 <= num / den) by (apply Z.div_pos; lia).
  assert (HqN : num / den <= N).
  { apply Z.div_le_upper_bound; [exact Hden|]. lia. }
  assert (Hlt : num / den = N -> num mod den = 0) by nia.
  destruct (2 * (num mod den) <? den) eqn:H1; [lia|].
  apply Z.ltb_ge in H1.
  assert (num / den < N) by (destruct (Z.eq_dec (num / den) N); lia).
  destruct (den <? 2 * (num mod den)); [lia|].
  destruct (Z.even (num / den)); lia.
Qed.

(** The double nearest to a fraction between 0 and 1 lies between 0 and
    1: both ends are doubles. *)
Lemma double_unit_interval (q : Q) :
  (0 <= q <= 1)%Q -> (0 <= double q <= 1)%Q.
Proof.
  destruct q as [n d]. intros [H0 H1].
  unfold Qle in H0, H1. cbn [Qnum Qden] in H0, H1.
  unfold double. cbn [Qnum Qden].
  destruct n as [|a|a]; [split; unfold Qle; cbn; lia| |lia].
  unfold double_pos.
  set (u := ulp_exponent (Z.pos a) (Z.pos d)).
  assert (Hu : u <= 0).
  { unfold u, ulp_exponent.
    assert (Z.log2 (Z.pos a) <= Z.log2 (Z.pos d))
      by (apply Z.log2_le_mono; lia).
    destruct (_ <=? _); lia. }
  replace (Z.max 0 u) with 0 by lia.
  replace (Z.max 0 (- u)) with (- u) by lia.
  set (k := - u). assert (Hk : 0 <= k) by (unfold k; lia).
  assert (Hpow : 0 < 2 ^ k) by (apply Z.pow_pos_nonneg; lia).
  rewrite Z.pow_0_r, !Z.mul_1_r.
  pose proof (round_half_even_bounds (Z.pos a * 2 ^ k) (Z.pos d) (2 ^ k)
                ltac:(lia) ltac:(nia)) as [Hn0 Hn1].
  set (n := round_half_even (Z.pos a * 2 ^ k) (Z.pos d)) in *.
  assert (Hv : (0 <= n # Z.to_pos (2 ^ k) <= 1)%Q).
  { unfold Qle. cbn [Qnum Qden]. rewrite Z2Pos.id by exact Hpow. lia. }
  rewrite (Qred_correct (n # Z.to_pos (2 ^ k))). exact Hv.
Qed.

(** X12. When every validation batch counts between zero and its size
    correct answers, the metric an epoch emits under [dev_metric] is the
    double nearest to the fraction of correct answers over all batches and
    lies between 0 and 1; in the first epoch of a run without prior state
    it becomes the best metric. *)
Theorem dev_metric_in_unit_interval env patience e v w r w' tb db p :
  epoch_body env patience e v w = Returns r w' ->
  env e = Passes tb db p ->
  Forall (fun b => 0 <= fst b <= snd b) db ->
  exists m loss,
    mlflow w' = mlflow w ++ [("dev_metric"%string, Some m);
                             ("loss"%string, Some loss)] /\
    m = double (inject_Z (sumZ (map fst db)) / inject_Z (sumZ (map snd db))) /\
    (0 <= m <= 1)%Q /\
    (v_best_dev_metric v = None -> v_best_dev_metric (fst r) = Some m).
Proof.
  intros Hb He Hsane. apply epoch_body_inv in Hb.
  destruct Hb as [tb' [db' [p' [ms [st [He' [[_ Hd] [_ [Hr ->]]]]]]]]].
  rewrite He in He'. injection He' as <- <- <-.
  exists (dev_metric_of db), (avg_loss_of tb).
  split; [reflexivity|]. split; [reflexivity|].
  split.
  - apply double_unit_interval.
    apply fraction_in_unit_interval; [|exact Hd].
    apply dev_counts_bounds. exact Hsane.
  - intro Hn. rewrite Hr. cbn [fst locals_after_epoch v_best_dev_metric].
    rewrite Hn. reflexivity.
Qed.

Lemma dev_metric_in_unit_interval_witness :
  exists m loss,
    mlflow (final_world
              (epoch_body improvement_scenario 5 0 (initial_locals None)
                 (final_world (reload_model false (boot Missing []))))) =
      [] ++ [("dev_metric"%string, Some m); ("loss"%string, Some loss)] /\
    (0 <= m <= 1)%Q.
Proof.
  pose (w0 := final_world (reload_model false (boot Missing []))).
  pose (o := epoch_body improvement_scenario 5 0 (initial_locals None) w0).
  assert (Hb : o = Returns (locals_after_epoch (initial_locals None) true 0
                              (double 0.5), false) (final_world o))
    by reflexivity.
  destruct (dev_metric_in_unit_interval improvement_scenario 5 0
              (initial_locals None) w0 _ _
              [((2#1)%Q, 4)] [(5, 10)] [1#1]%Q Hb eq_refl)
    as [m [loss [Hm [_ [Hr _]]]]].
  - constructor; [cbn; lia|constructor].
  - exists m, loss. split; [exact Hm|exact Hr].
Defined.

(** ** Runs that are not stopped early *)

(** With a streak that cannot reach the patience within the epochs left,
    and collaborators that go through them, the loop runs them all. *)
Lemma for_range_runs_all env patience n :
  forall e v w,
    (exists ms st, disk w = Directory ms st) ->
    0 <= v_not_improving_since v ->
    v_not_improving_since v + Z.of_nat n <= patience ->
    (forall i, e <= i < e + Z.of_nat n -> exists m, epoch_scores env i m) ->
    exists v' w',
      for_range env patience n e v w = Returns v' w' /\
      List.length (emitted "dev_metric" (mlflow w')) =
        (List.length (emitted "dev_metric" (mlflow w)) + n)%nat /\
      (n <> O -> v_epoch v' = Some (e + Z.of_nat n - 1)).
Proof.
  induction n as [|n IH]; intros e v w [ms [st Hw]] Hnn Hnis Hall.
  - exists v, w. split; [reflexivity|]. split; [lia|congruence].
  - destruct (Hall e ltac:(lia)) as [m [tb [db [p [He [Hc _]]]]]].
    rewrite for_range_S.
    rewrite (epoch_body_passes _ patience _ v _ _ _ _ _ _ He Hc Hw).
    set (imp := improves (dev_metric_of db) (v_best_dev_metric v)).
    set (v1 := locals_after_epoch v imp e (dev_metric_of db)).
    set (w1 := world_after_epoch _ _ _ _ _ _ _).
    assert (Hn1 : 0 <= v_not_improving_since v1 <=
                  v_not_improving_since v + 1).
    { unfold v1, locals_after_epoch. cbn [v_not_improving_since].
      destruct imp; lia. }
    assert (Hd1 : List.length (emitted "dev_metric" (mlflow w1)) =
                  S (List.length (emitted "dev_metric" (mlflow w)))).
    { unfold w1. cbn [world_after_epoch mlflow].
      rewrite emitted_epoch, length_app. cbn [List.length]. lia. }
    destruct (v_not_improving_since v1 >=? patience) eqn:Hbrk.
    + apply Z.geb_le in Hbrk. assert (n = O) as -> by lia.
      exists v1, w1. split; [reflexivity|]. split; [lia|].
      intros _. cbn [v1 locals_after_epoch v_epoch]. f_equal. lia.
    + rewrite Z.geb_leb in Hbrk. apply Z.leb_gt in Hbrk.
      destruct (IH (e + 1) v1 w1) as [v' [w' [Hf [Hlen Hep]]]].
      * unfold w1. cbn. eauto.
      * lia.
      * lia.
      * intros i Hi. apply Hall. lia.
      * exists v', w'. split; [exact Hf|]. split; [lia|].
        intros _. destruct n as [|n].
        -- cbn in Hf. unfold ret in Hf. injection Hf as <- _.
           cbn [v1 locals_after_epoch v_epoch]. f_equal. lia.
        -- rewrite Hep by discriminate. f_equal. lia.
Qed.

(** X13. A patience that is at least the number of epochs left disables
    early stopping: with collaborators that go through every epoch, the
    run completes all the epochs from [start_epoch] to [max_epoch - 1],
    whatever the metrics, and the state record ends with
    [epoch = max_epoch]. *)
Theorem large_patience_runs_every_epoch env max_epoch patience sfs w s w0 :
  reload_model sfs w = Returns s w0 ->
  start_epoch s < max_epoch ->
  max_epoch - start_epoch s <= patience ->
  (forall e, start_epoch s <= e < max_epoch ->
             exists m, epoch_scores env e m) ->
  exists b w1,
    pytorch_train_impl env max_epoch patience sfs w = Returns (Some b) w1 /\
    persisted w1 = Some {| best_dev_metric := Some b; epoch := max_epoch |} /\
    List.length (emitted "dev_metric" (mlflow w1)) =
      (List.length (emitted "dev_metric" (mlflow w))
       + Z.to_nat (max_epoch - start_epoch s))%nat.
Proof.
  intros Hs Hlt HP Hall.
  destruct (reload_model_returns_frame _ _ _ _ Hs) as [Hml _].
  pose proof (reload_model_standing _ _ _ _ Hs) as [Hdir _].
  rewrite (pytorch_train_impl_loop _ _ _ _ _ _ _ Hs).
  destruct (for_range_runs_all env patience
              (Z.to_nat (max_epoch - start_epoch s)) (start_epoch s)
              (initial_locals s) w0 Hdir)
    as [v' [w' [Hf [Hlen Hep]]]].
  - cbn. lia.
  - cbn. lia.
  - intros i Hi. apply Hall. lia.
  - rewrite Hf.
    pose proof (for_range_settled _ _ _ _ (initial_locals s) _ _ _ I Hf)
      as Hset.
    unfold settled in Hset. rewrite Hep in * by lia.
    destruct Hset as [m [Hm Hp]]. rewrite Hm.
    exists m. eexists. split; [reflexivity|].
    cbn [log_metric final_world]. split.
    + unfold persisted in *. cbn [disk]. rewrite Hp. do 2 f_equal. lia.
    + cbn [mlflow]. rewrite emitted_app, length_app, Hlen, Hml.
      change (emitted "dev_metric" [("best_dev_metric"%string, Some m)])
        with (@nil (option Q)).
      cbn [List.length]. lia.
Qed.

(** The improvement scenario has patience 5 for 3 epochs. *)
Lemma large_patience_runs_every_epoch_witness :
  exists b w1,
    pytorch_train_impl improvement_scenario 3 5 false (boot Missing []) =
      Returns (Some b) w1 /\
    persisted w1 = Some {| best_dev_metric := Some b; epoch := 3 |}.
Proof.
  destruct (large_patience_runs_every_epoch improvement_scenario 3 5 false
              (boot Missing []) None
              (final_world (reload_model false (boot Missing [])))
              eq_refl)
    as [b [w1 [Hrun [Hp _]]]].
  - simpl. lia.
  - simpl. lia.
  - intros e He. cbn in He.
    assert (e = 0 \/ e = 1 \/ e = 2) as [H0|[H0|H0]] by lia; subst e.
    + exists (double 0.5), [((2#1)%Q, 4)], [(5, 10)], [1#1]%Q.
      split; [reflexivity|]. split; [|reflexivity]. split; discriminate.
    + exists (double 0.6), [((1#1)%Q, 4)], [(6, 10)], [2#1]%Q.
      split; [reflexivity|]. split; [|reflexivity]. split; discriminate.
    + exists (double 0.55), [((1#1)%Q, 4)], [(55, 100)], [3#1]%Q.
      split; [reflexivity|]. split; [|reflexivity]. split; discriminate.
  - exists b, w1. auto.
Defined.

(** With a patience of at least one and metrics that keep rising, every
    epoch saves the model and resets the streak, and the loop runs all its
    epochs. *)
Lemma for_range_improving env patience (f : Z -> Q) n :
  1 <= patience ->
  forall e v w,
    (exists ms st, disk w = Directory ms st) ->
    (forall i, e <= i < e + Z.of_nat n -> epoch_scores env i (f i)) ->
    (forall i, e <= i -> i + 1 < e + Z.of_nat n -> (f i < f (i + 1)%Z)%Q) ->
    (n <> O -> forall b, v_best_dev_metric v = Some b -> (b < f e)%Q) ->
    exists v' w',
      for_range env patience n e v w = Returns v' w' /\
      List.length (saved_models (writes w')) =
        (List.length (saved_models (writes w)) + n)%nat /\
      (n <> O ->
       v' = {| v_best_dev_metric := Some (f (e + Z.of_nat n - 1));
               v_not_improving_since := 0;
               v_epoch := Some (e + Z.of_nat n - 1) |}).
Proof.
  intro HP. induction n as [|n IH]; intros e v w [ms [st Hw]] Hall Hup Hb.
  - exists v, w. split; [reflexivity|]. split; [lia|congruence].
  - destruct (Hall e ltac:(lia)) as [tb [db [p [He [Hc Hm]]]]].
    rewrite for_range_S.
    rewrite (epoch_body_passes _ patience _ v _ _ _ _ _ _ He Hc Hw).
    rewrite Hm.
    assert (Hi : improves (f e) (v_best_dev_metric v) = true).
    { apply improves_true.
      destruct (v_best_dev_metric v) as [b|] eqn:Hbest; [|auto].
      right. exists b. split; [reflexivity|]. apply Hb; [discriminate|].
      reflexivity. }
    rewrite Hi. unfold locals_after_epoch.
    cbn [v_not_improving_since v_best_dev_metric].
    replace (0 >=? patience) with false
      by (symmetry; rewrite Z.geb_leb; apply Z.leb_gt; lia).
    set (v1 := {| v_best_dev_metric := Some (f e);
                  v_not_improving_since := 0;
                  v_epoch := Some e |}).
    set (w1 := world_after_epoch _ _ _ _ _ _ _).
    assert (Hs1 : List.length (saved_models (writes w1)) =
                  S (List.length (saved_models (writes w)))).
    { unfold w1. cbn [world_after_epoch writes].
      rewrite saved_models_app, length_app. cbn. lia. }
    destruct (IH (e + 1) v1 w1) as [v' [w' [Hf [Hlen Hv']]]].
    + unfold w1. cbn. eauto.
    + intros i Hi'. apply Hall. lia.
    + intros i Hi1 Hi2. apply Hup; lia.
    + intros Hn b Hbest. cbn in Hbest. injection Hbest as <-.
      apply Hup; lia.
    + exists v', w'. split; [exact Hf|]. split; [lia|].
      intros _. destruct n as [|n].
      * cbn in Hf. unfold ret in Hf. injection Hf as <- _.
        unfold v1. replace (e + Z.of_nat 1 - 1) with e by lia. reflexivity.
      * rewrite Hv' by discriminate.
        replace (e + 1 + Z.of_nat (S n) - 1)
          with (e + Z.of_nat (S (S n)) - 1) by lia.
        reflexivity.
Qed.

(** X14. While the validation metric keeps rising, a run with a patience
    of at least one is never stopped early: if every epoch from
    [start_epoch] to [max_epoch - 1] goes through with a metric, the double
    it emits, above the one before it, the first above the best metric the
    run started from,
    then every epoch saves the model, the run returns the metric of the
    last epoch, and the state record ends with [epoch = max_epoch]. *)
Theorem rising_metrics_run_every_epoch
    env max_epoch patience sfs w s w0 (f : Z -> Q) :
  1 <= patience ->
  reload_model sfs w = Returns s w0 ->
  start_epoch s < max_epoch ->
  (forall e, start_epoch s <= e < max_epoch -> epoch_scores env e (f e)) ->
  (forall e, start_epoch s <= e -> e + 1 < max_epoch ->
             (f e < f (e + 1)%Z)%Q) ->
  (forall b, v_best_dev_metric (initial_locals s) = Some b ->
             (b < f (start_epoch s))%Q) ->
  exists w1,
    pytorch_train_impl env max_epoch patience sfs w =
      Returns (Some (f (max_epoch - 1))) w1 /\
    persisted w1 =
      Some {| best_dev_metric := Some (f (max_epoch - 1));
              epoch := max_epoch |} /\
    List.length (saved_models (writes w1)) =
      (List.length (saved_models (writes w))
       + Z.to_nat (max_epoch - start_epoch s))%nat.
Proof.
  intros HP Hs Hlt Hall Hup Hb.
  destruct (reload_model_returns_frame _ _ _ _ Hs) as [_ [_ [_ [Hsm _]]]].
  pose proof (reload_model_standing _ _ _ _ Hs) as [Hdir _].
  rewrite (pytorch_train_impl_loop _ _ _ _ _ _ _ Hs).
  destruct (for_range_improving env patience f
              (Z.to_nat (max_epoch - start_epoch s)) HP (start_epoch s)
              (initial_locals s) w0 Hdir)
    as [v' [w' [Hf [Hlen Hv']]]].
  - intros i Hi. apply Hall. lia.
  - intros i Hi1 Hi2. apply Hup; lia.
  - intros _. exact Hb.
  - rewrite Hf.
    pose proof (for_range_settled _ _ _ _ (initial_locals s) _ _ _ I Hf)
      as Hset.
    rewrite Hv' in * by lia. unfold settled in Hset. cbn [v_epoch] in Hset.
    destruct Hset as [m [Hm Hp]]. cbn [v_best_dev_metric] in Hm.
    injection Hm as <-.
    replace (start_epoch s + Z.of_nat (Z.to_nat (max_epoch - start_epoch s))
             - 1) with (max_epoch - 1) in * by lia.
    cbn [v_epoch v_best_dev_metric].
    eexists. split; [reflexivity|].
    cbn [log_metric final_world]. split.
    + unfold persisted in *. cbn [disk]. rewrite Hp. do 2 f_equal. lia.
    + cbn [writes]. rewrite Hlen, Hsm. reflexivity.
Qed.

(** Two epochs, 0.5 then 0.6, with patience 1. *)
Lemma rising_metrics_run_every_epoch_witness :
  exists w1,
    pytorch_train_impl improvement_scenario 2 1 false (boot Missing []) =
      Returns (Some (double 0.6)) w1 /\
    persisted w1 = Some {| best_dev_metric := Some (double 0.6); epoch := 2 |}.
Proof.
  destruct (rising_metrics_run_every_epoch improvement_scenario 2 1 false
              (boot Missing []) None
              (final_world (reload_model false (boot Missing [])))
              (fun e => if e =? 0 then (double 0.5) else (double 0.6))
              ltac:(lia) eq_refl)
    as [w1 [Hrun [Hp _]]].
  - simpl. lia.
  - intros e He. cbn in He.
    assert (e = 0 \/ e = 1) as [H0|H0] by lia; subst e.
    + exists [((2#1)%Q, 4)], [(5, 10)], [1#1]%Q.
      split; [reflexivity|]. split; [|reflexivity]. split; discriminate.
    + exists [((1#1)%Q, 4)], [(6, 10)], [2#1]%Q.
      split; [reflexivity|]. split; [|reflexivity]. split; discriminate.
  - intros e He1 He2. cbn in He1. assert (e = 0) as -> by lia.
    vm_compute. reflexivity.
  - intros b Hb. discriminate.
  - exists w1. auto.
Defined.
